(** * Deep_Learning: the two notebooks, embedded and checked

    - [Autoencoder for Text in TensorFlow.ipynb]: vocabulary building,
      one-hot encoding, the six-layer graph, the loss and the training loop;
    - [CIFAR_10-Keras.ipynb]: the two Keras models, their compilation,
      training, evaluation and the dataset cache.

    Python integers are [Z]; a [dict] is a [gmap]; exceptions are a small
    error monad; calls into TensorFlow, Keras and numpy whose result is not
    computed by the notebooks are operations of an abstract interface. *)

From stdpp Require Import gmap strings list fin_maps.
From stdpp Require Import sorting.
From Stdlib Require Import ZArith QArith Floats.
Local Open Scope Z_scope.

(** ** Python exceptions

    The exceptions the notebooks' own statements can raise: a dict lookup
    that finds no key, an index out of range, a name that is not bound. *)

Inductive exn := KeyError | IndexError | NameError.

Inductive py (A : Type) : Type :=
| Ok (a : A)
| Raise (e : exn).
Arguments Ok {A} a.
Arguments Raise {A} e.

Global Instance py_ret : MRet py := λ A a, Ok a.
Global Instance py_bind : MBind py := λ A B f m,
  match m with
  | Ok a => f a
  | Raise e => Raise e
  end.

(** A list comprehension [[f(x) for x in l]]: elements are evaluated from
    left to right and the first exception aborts the comprehension. *)
Fixpoint comprehension {A B} (f : A → py B) (l : list A) : py (list B) :=
  match l with
  | [] => Ok []
  | x :: l' => y ← f x; k ← comprehension f l'; Ok (y :: k)
  end.

(** [d[k]] on a dict raises [KeyError] for an absent key. *)
Definition dict_getitem {K V} `{Countable K} (d : gmap K V) (k : K) : py V :=
  match d !! k with
  | Some v => Ok v
  | None => Raise KeyError
  end.

(** [k in d]. *)
Definition dict_contains {K V} `{Countable K} (d : gmap K V) (k : K) : bool :=
  bool_decide (is_Some (d !! k)).

(** [dict(pairs)]: later pairs overwrite earlier ones. *)
Definition dict_of_pairs {K V} `{Countable K} (pairs : list (K * V)) : gmap K V :=
  foldl (λ d kv, <[kv.1 := kv.2]> d) ∅ pairs.

(** [len(d)]. *)
Definition dict_len {K V} `{Countable K} (d : gmap K V) : Z := Z.of_nat (size d).

(** [range(n)]. *)
Definition range (n : Z) : list Z := Z.of_nat <$> seq 0 (Z.to_nat n).

(** ** Indexing a list or the first axis of a numpy array

    An index [i] with [0 <= i < n] denotes position [i], an index with
    [-n <= i < 0] denotes position [n + i], anything else raises
    [IndexError].  This is indexing with a machine integer,
    [-2^63 <= i < 2^63]; the notebooks index with dictionary values, loop
    counters and [randint] draws.  An integer beyond that range is refused by
    numpy before it looks at the array, with an exception of another class,
    and is outside this model. *)
Definition position (n : nat) (index : Z) : py nat :=
  if bool_decide (0 ≤ index < Z.of_nat n) then Ok (Z.to_nat index)
  else if bool_decide (- Z.of_nat n ≤ index < 0) then Ok (Z.to_nat (Z.of_nat n + index))
  else Raise IndexError.

(** [np.zeros(n, dtype=np.int32)], for [n >= 0]; the notebook passes a
    [len(...)]. *)
Definition np_zeros (n : Z) : list Z := replicate (Z.to_nat n) 0.

Definition setitem {A} (a : list A) (index : Z) (v : A) : py (list A) :=
  p ← position (length a) index; Ok (<[p := v]> a).

Definition getitem {A} (a : list A) (index : Z) : py A :=
  p ← position (length a) index;
  match a !! p with
  | Some x => Ok x
  | None => Raise IndexError
  end.

(** [random.randint(a, b)] returns some integer [N] with [a <= N <= b]; the
    draw is the only nondeterminism of the notebook, so it is a relation. *)
Definition randint (a b N : Z) : Prop := a ≤ N ≤ b.

(** ** The autoencoder notebook *)
Module Autoencoder.

(** *** Vocabulary *)

(** [Counter(words)]: a dict from each element to its number of occurrences. *)
Definition Counter (words : list string) : gmap string Z :=
  foldl (λ c w, <[w := default 0 (c !! w) + 1]> c) ∅ words.

(** [sorted(items, key=itemgetter(1), reverse=True)]: a stable sort, so items
    of equal count keep their relative order. *)
Fixpoint insert_by_count (x : string * Z) (l : list (string * Z)) : list (string * Z) :=
  match l with
  | [] => [x]
  | y :: l' => if bool_decide (y.2 ≤ x.2) then x :: y :: l' else y :: insert_by_count x l'
  end.

Definition sorted_by_count (items : list (string * Z)) : list (string * Z) :=
  foldr insert_by_count [] items.

(** The loop of [build_vocab],
    [for word, _ in count: dictionary[word] = index; index += 1],
    from any dictionary and index. *)
Definition assign_indices (count : list (string * Z)) (d : gmap string Z) (index : Z)
  : gmap string Z * Z :=
  foldl (λ '(dictionary, index) '(word, _), (<[word := index]> dictionary, index + 1))
        (d, index) count.

(** How often [w] occurs in [words]: [words.count(w)]. *)
Definition occurrences (words : list string) (w : string) : Z :=
  Z.of_nat (length (filter (w =.) words)).

(** The order [sorted_by_count] sorts into: counts go down. *)
Definition by_count (x y : string * Z) : Prop := y.2 ≤ x.2.

(** A one-hot vector of length [n]: 1 at [index], 0 elsewhere. *)
Definition one_hot (n index : Z) (row : list Z) : Prop :=
  Z.of_nat (length row) = n ∧ 0 ≤ index < n ∧
  ∀ j : nat, (j < length row)%nat →
    row !! j = Some (if bool_decide (Z.of_nat j = index) then 1 else 0).

Section DictOrder.

(** The order in which a dict is iterated.  The notebook runs on Python 3.5,
    where that order is unspecified (the recorded vocabulary lists the words
    of count one as tall, over, lazy, dog, jumped, brown, from), so it is a
    parameter; [keys()], [values()] and [items()] of one dict agree on it. *)
Variable dict_iter : gmap string Z → list (string * Z).

(** [Counter.most_common(n)] is [heapq.nlargest(n, items, key=count)], that
    is the first [n] items of the stable descending sort, and no item when
    [n <= 0]. *)
Definition most_common (c : gmap string Z) (n : Z) : list (string * Z) :=
  take (Z.to_nat n) (sorted_by_count (dict_iter c)).

Definition build_vocab (words : list string) (vocab_size : Z)
  : gmap string Z * gmap Z string :=
  let count := ("UNK", -1) :: most_common (Counter words) (vocab_size - 1) in
  let '(dictionary, _) :=
    foldl (λ '(dictionary, index) '(word, _), (<[word := index]> dictionary, index + 1))
          (∅, 0) count in
  let index_dictionary :=
    dict_of_pairs (zip (dict_iter dictionary).*2 (dict_iter dictionary).*1) in
  (dictionary, index_dictionary).

(** The words [build_vocab] numbers, in the order of its list [count]. *)
Definition vocab_words (words : list string) (vocab_size : Z) : list string :=
  "UNK"%string :: (most_common (Counter words) (vocab_size - 1)).*1.

(** [index_words_in_corpus] reads the global [vocabulary]. *)
Definition index_words_in_corpus (vocabulary : gmap string Z) (corpus : list string)
  : py (list Z) :=
  comprehension
    (λ token, if dict_contains vocabulary token then dict_getitem vocabulary token else Ok 0)
    corpus.

(** [one_hot_encode] reads the global [vocabulary_size]. *)
Definition one_hot_encode (vocabulary_size : Z) (index : Z) : py (list Z) :=
  let row := np_zeros vocabulary_size in
  row ← setitem row index 1;
  Ok row.

Definition corpus_text : list string :=
  ["the"; "quick"; "brown"; "fox"; "jumped"; "over"; "the"; "lazy"; "dog"; "from";
   "the"; "quick"; "tall"; "fox"]%string.

Definition vocabulary : gmap string Z := (build_vocab corpus_text 100).1.
Definition reverse_vocabulary : gmap Z string := (build_vocab corpus_text 100).2.
Definition corpus : py (list Z) := index_words_in_corpus vocabulary corpus_text.
Definition test_corpus : py (list Z) := index_words_in_corpus vocabulary corpus_text.
Definition vocabulary_size : Z := dict_len vocabulary.

Definition data : py (list (list Z)) :=
  c ← corpus; comprehension (one_hot_encode vocabulary_size) c.
Definition test_data : py (list (list Z)) :=
  c ← test_corpus; comprehension (one_hot_encode vocabulary_size) c.

End DictOrder.

(** *** The computation graph

    TensorFlow 1 code builds a graph and runs it later, so the graph-building
    cells are embedded as the terms they build.  Weights and activations are
    float32 tensors; what the graph computes on them is TensorFlow's. *)

Inductive initializer :=
| random_normal (shape : list Z) (stddev : Q)
| zeros (shape : list Z).

Inductive tensor :=
| placeholder (name : string) (shape : list (option Z))
| tf_Variable (initial_value : initializer) (name : string)
| matmul (a b : tensor)
| add (a b : tensor)
| subtract (a b : tensor)
| pow (a : tensor) (exponent : Z)
| relu (a : tensor)
| sigmoid (a : tensor)
| reduce_mean (a : tensor).

Inductive operation :=
| RMSPropOptimizer_minimize (learning_rate : Q) (loss : tensor)
| global_variables_initializer.

Section Graph.
Variable vocabulary_size : Z.

Definition X := placeholder "Placeholder" [None; Some vocabulary_size].
Definition Y := placeholder "Placeholder_1" [None; Some vocabulary_size].

Definition w1 := tf_Variable (random_normal [vocabulary_size; 1000] 0.01%Q) "weights1".
Definition b1 := tf_Variable (zeros [1; 1000]) "bias1".
Definition layer1 := relu (add (matmul X w1) b1).

Definition w2 := tf_Variable (random_normal [1000; 250] 0.01%Q) "weights2".
Definition b2 := tf_Variable (zeros [1; 250]) "bias2".
Definition layer2 := relu (add (matmul layer1 w2) b2).

Definition w := tf_Variable (random_normal [250; 50] 0.01%Q) "weights".
Definition b := tf_Variable (zeros [1; 50]) "bias".
Definition code := relu (add (matmul layer2 w) b).

Definition w3 := tf_Variable (random_normal [50; 250] 0.01%Q) "weights3".
Definition b3 := tf_Variable (zeros [1; 250]) "bias3".
Definition layer3 := relu (add (matmul code w3) b3).

Definition w4 := tf_Variable (random_normal [250; 1000] 0.01%Q) "weights4".
Definition b4 := tf_Variable (zeros [1; 1000]) "bias4".
Definition layer4 := relu (add (matmul layer3 w4) b4).

Definition w5 := tf_Variable (random_normal [1000; vocabulary_size] 0.01%Q) "weights5".
Definition b5 := tf_Variable (zeros [1; vocabulary_size]) "bias5".
Definition decoder := sigmoid (add (matmul layer4 w5) b5).

Definition loss := reduce_mean (pow (subtract X decoder) 2).

(** [LEARNING_RATE] is bound by a later cell of the notebook; the cell below
    reads it from the kernel. *)
Definition optimizer (LEARNING_RATE : Q) := RMSPropOptimizer_minimize LEARNING_RATE loss.
Definition init := global_variables_initializer.

(** The cell
    [optimizer = tf.train.RMSPropOptimizer(learning_rate=LEARNING_RATE).minimize(loss)]
    as the kernel runs it.  [bound] is what the name [LEARNING_RATE] is bound
    to in the kernel at that moment: the notebook's only assignment to it is
    in the cell after this one, so in a kernel that has run nothing else the
    name is not bound ([None]) and reading it raises [NameError]. *)
Definition optimizer_cell (bound : option Q) : py operation :=
  match bound with
  | Some LEARNING_RATE => Ok (optimizer LEARNING_RATE)
  | None => Raise NameError
  end.

End Graph.

Definition LEARNING_RATE : Q := 0.01%Q.
Definition NUM_TRAIN_STEPS : Z := 1000.
Definition SKIP_STEP : Z := 10.

(** Reading a graph back.  [matmuls t] counts the [tf.matmul] nodes of [t];
    [dense_layers t] reads [t] as a chain of layers
    [activation(tf.add(tf.matmul(input, weights), bias))] that starts at a
    placeholder, and returns for each layer its activation and the shape of
    its weight matrix, from the input side on. *)
Fixpoint matmuls (t : tensor) : nat :=
  match t with
  | placeholder _ _ | tf_Variable _ _ => 0
  | matmul a b => S (matmuls a + matmuls b)
  | add a b | subtract a b => matmuls a + matmuls b
  | pow a _ | relu a | sigmoid a | reduce_mean a => matmuls a
  end.

Inductive activation := Relu | Sigmoid.

Fixpoint dense_layers (t : tensor) : option (list (activation * list Z)) :=
  let layer act a :=
    match a with
    | add (matmul input (tf_Variable (random_normal shape _) _)) (tf_Variable (zeros _) _) =>
        ls ← dense_layers input; Some (ls ++ [(act, shape)])
    | _ => None
    end in
  match t with
  | placeholder _ _ => Some []
  | relu a => layer Relu a
  | sigmoid a => layer Sigmoid a
  | _ => None
  end.

(** *** What the loss evaluates to

    [sess.run] evaluates a tensor from what the placeholders are fed.  The
    nodes of the network proper ([tf.matmul], [tf.add], [tf.nn.relu] and
    [tf.nn.sigmoid] over the variables) are float32 kernels of TensorFlow's
    and what they evaluate to is a parameter, [network]; a placeholder
    evaluates to the array it is fed; the three nodes of the loss,
    [X - decoder], [tf.pow(_, 2)] and [tf.reduce_mean(_)], are evaluated on
    those values.  A float32 is a rational number, and the arithmetic is
    exact here, where TensorFlow rounds every result to float32.  A scalar is
    an array of one row and one column. *)

Global Instance Q_eq_dec : EqDecision Q.
Proof. solve_decision. Defined.
Global Instance initializer_eq_dec : EqDecision initializer.
Proof. solve_decision. Defined.
Global Instance tensor_eq_dec : EqDecision tensor.
Proof. solve_decision. Defined.






Section Values.
Variable network : tensor → option (list (list Q)).
Variable feed_dict : list (tensor * list (list Z)).


End Values.


(** *** The training session

    A [tf.Session] is TensorFlow's; the notebook only calls [run] on it.  The
    result of [run] has the structure of its fetches, so there is one
    operation per fetch structure used.  Values that come back are float32
    arrays and scalars of TensorFlow's. *)

(** What the cell sends to standard output: the arguments of
    ["EPOCH {}/{}, LOSS {}".format(i, NUM_TRAIN_STEPS, loss_val)]. *)
Record epoch_line (value : Type) := EPOCH { epoch : Z; total : Z; LOSS : value }.
Arguments EPOCH {value}.
Arguments epoch {value}.
Arguments total {value}.
Arguments LOSS {value}.

(** The calls a cell makes, in order, with what came back. *)
Inductive event (value : Type) :=
| ran_operation (o : operation)
| ran_step (o : operation) (t : tensor) (feed : list (tensor * list (list Z))) (result : value)
| ran_tensor (t : tensor) (feed : list (tensor * list (list Z))) (result : value)
| printed (line : epoch_line value).
Arguments ran_operation {value}.
Arguments ran_step {value}.
Arguments ran_tensor {value}.
Arguments printed {value}.

(** The loss values the training steps of a run returned, and the lines it
    printed. *)
Definition step_results {value} (es : list (event value)) : list value :=
  omap (λ e, match e with ran_step _ _ _ v => Some v | _ => None end) es.

Definition printed_lines {value} (es : list (event value)) : list (epoch_line value) :=
  omap (λ e, match e with printed l => Some l | _ => None end) es.

(** What a pass of the training loop does: a run of [[optimizer, loss]] fed
    with [{X: data}], or a line printed. *)
Definition training_pass_event {value} (optimizer_op : operation) (vocabulary_size : Z)
    (data : list (list Z)) (e : event value) : Prop :=
  match e with
  | ran_step o t feed _ =>
      o = optimizer_op ∧ t = loss vocabulary_size ∧ feed = [(X vocabulary_size, data)]
  | printed _ => True
  | _ => False
  end.

Section Session.
Context {session value file : Type}.

(** [tf.Session()]. *)
Variable Session : session.
(** [sess.run(op)]. *)
Variable run_operation : session → operation → session.
(** [sess.run([op, t], feed_dict)]: the value of [t] (that of [op] is [None]). *)
Variable run_step :
  session → operation → tensor → list (tensor * list (list Z)) → session * value.
(** [sess.run(t, feed_dict)]. *)
Variable run_tensor :
  session → tensor → list (tensor * list (list Z)) → session * value.

(** The machine the notebook runs on: its files and the calls made so far. *)
Record kernel := Kernel { files : gmap string file; events : list (event value) }.

Definition emit (e : event value) (k : kernel) : kernel :=
  Kernel (files k) (events k ++ [e]).

(** One pass of the body of [for i in range(NUM_TRAIN_STEPS)]. *)
Definition training_step (vocabulary_size : Z) (data : list (list Z))
    (st : session * kernel) (i : Z) : session * kernel :=
  let '(sess, k) := st in
  let fetch_op := optimizer vocabulary_size LEARNING_RATE in
  let fetch_t := loss vocabulary_size in
  let feed_dict := [(X vocabulary_size, data)] in
  let '(sess, loss_val) := run_step sess fetch_op fetch_t feed_dict in
  let k := emit (ran_step fetch_op fetch_t feed_dict loss_val) k in
  let k :=
    if bool_decide (i `mod` SKIP_STEP = 0)
    then emit (printed (EPOCH i NUM_TRAIN_STEPS loss_val)) k
    else k in
  (sess, k).

Definition training_loop (vocabulary_size : Z) (data : list (list Z))
    (st : session * kernel) : session * kernel :=
  foldl (training_step vocabulary_size data) st (range NUM_TRAIN_STEPS).

(** The cell [with tf.Session() as sess: ...]; the line with [np.save] is a
    comment in the notebook, so it has no counterpart here. *)
Definition training_cell (vocabulary_size : Z) (data test_data : list (list Z))
    (k : kernel) : value * kernel :=
  let sess := Session in
  let sess := run_operation sess init in
  let k := emit (ran_operation init) k in
  let '(sess, k) := training_loop vocabulary_size data (sess, k) in
  let feed_dict := [(X vocabulary_size, test_data)] in
  let '(sess, test_data_compressed) := run_tensor sess (decoder vocabulary_size) feed_dict in
  let k := emit (ran_tensor (decoder vocabulary_size) feed_dict test_data_compressed) k in
  (test_data_compressed, k).

(** The session the loop has after [n] passes, and the loss value pass [i]
    (counted from 0) gets back. *)
Definition session_after (vocabulary_size : Z) (data : list (list Z)) (sess : session)
    (n : nat) : session :=
  Nat.iter n
    (λ s, (run_step s (optimizer vocabulary_size LEARNING_RATE) (loss vocabulary_size)
                    [(X vocabulary_size, data)]).1)
    sess.

Definition loss_val_at (vocabulary_size : Z) (data : list (list Z)) (sess : session)
    (i : nat) : value :=
  (run_step (session_after vocabulary_size data sess i)
            (optimizer vocabulary_size LEARNING_RATE) (loss vocabulary_size)
            [(X vocabulary_size, data)]).2.

(** What pass [i] adds to the record of calls. *)
Definition pass_events (vocabulary_size : Z) (data : list (list Z)) (sess : session)
    (i : nat) : list (event value) :=
  let loss_val := loss_val_at vocabulary_size data sess i in
  ran_step (optimizer vocabulary_size LEARNING_RATE) (loss vocabulary_size)
           [(X vocabulary_size, data)] loss_val ::
  (if bool_decide (Z.of_nat i `mod` SKIP_STEP = 0)
   then [printed (EPOCH (Z.of_nat i) NUM_TRAIN_STEPS loss_val)]
   else []).

(** The training cell reads the name [optimizer], which holds the operation
    the optimizer cell built, with the learning rate that cell found.
    [training_step], [training_loop] and [training_cell] above are the cell
    for an optimizer built with the [LEARNING_RATE] of the notebook; the
    three definitions below are the same lines for any operation
    [optimizer_op] the name is bound to. *)
Definition training_step_with (optimizer_op : operation) (vocabulary_size : Z)
    (data : list (list Z)) (st : session * kernel) (i : Z) : session * kernel :=
  let '(sess, k) := st in
  let fetch_t := loss vocabulary_size in
  let feed_dict := [(X vocabulary_size, data)] in
  let '(sess, loss_val) := run_step sess optimizer_op fetch_t feed_dict in
  let k := emit (ran_step optimizer_op fetch_t feed_dict loss_val) k in
  let k :=
    if bool_decide (i `mod` SKIP_STEP = 0)
    then emit (printed (EPOCH i NUM_TRAIN_STEPS loss_val)) k
    else k in
  (sess, k).

Definition training_loop_with (optimizer_op : operation) (vocabulary_size : Z)
    (data : list (list Z)) (st : session * kernel) : session * kernel :=
  foldl (training_step_with optimizer_op vocabulary_size data) st (range NUM_TRAIN_STEPS).

Definition training_cell_with (optimizer_op : operation) (vocabulary_size : Z)
    (data test_data : list (list Z)) (k : kernel) : value * kernel :=
  let sess := Session in
  let sess := run_operation sess init in
  let k := emit (ran_operation init) k in
  let '(sess, k) := training_loop_with optimizer_op vocabulary_size data (sess, k) in
  let feed_dict := [(X vocabulary_size, test_data)] in
  let '(sess, test_data_compressed) := run_tensor sess (decoder vocabulary_size) feed_dict in
  let k := emit (ran_tensor (decoder vocabulary_size) feed_dict test_data_compressed) k in
  (test_data_compressed, k).

(** The notebook from its first cell to the training session, cell after
    cell in the order of the document; an exception ends the run.

    - [LEARNING_RATE_bound] is what the name [LEARNING_RATE] is bound to in
      the kernel when the run starts, [None] in a fresh kernel;
    - [draw] is the integer [randint(1, data.shape[0])] returns in the cell
      [data[randint(1, data.shape[0])]].

    The cells that define the functions, build the vocabulary and the arrays
    come first; the cell that shows a random row can raise; the cells that
    build the placeholders, the layers and the loss only build graph terms;
    the optimizer cell reads [LEARNING_RATE]; the cell after it binds
    [LEARNING_RATE], [NUM_TRAIN_STEPS] and [SKIP_STEP]; the training cell
    runs the session. *)
Definition notebook (dict_iter : gmap string Z → list (string * Z))
    (LEARNING_RATE_bound : option Q) (draw : Z) (k : kernel) : py (value * kernel) :=
  rows ← data dict_iter;
  test_rows ← test_data dict_iter;
  _ ← getitem rows draw;
  optimizer_op ← optimizer_cell (vocabulary_size dict_iter) LEARNING_RATE_bound;
  Ok (training_cell_with optimizer_op (vocabulary_size dict_iter) rows test_rows k).

End Session.

(** *** The reconstruction cells

    The decoder's output comes back as a float32 array; [tolist] turns its
    entries into Python floats without rounding, and the comparisons below
    give the same answer on either, so the entries are binary64 floats here. *)

(** [test_data_compressed[test_data_compressed > 0] = 1]. *)
Definition threshold (test_data_compressed : list (list float)) : list (list float) :=
  (λ row : list float, (λ x, if (0 <? x)%float then 1%float else x) <$> row)
    <$> test_data_compressed.

(** [sent = np.ndarray.tolist(test_data_compressed)[0]] and the line the last
    cell prints,
    [' '.join([reverse_vocabulary[i] if sent[i] == 1. else "" for i in range(len(sent))])]. *)
Definition printed_sentence (reverse_vocabulary : gmap Z string)
    (test_data_compressed : list (list float)) : py string :=
  sent ← getitem test_data_compressed 0;
  fields ← comprehension
    (λ i, x ← getitem sent i;
          if (x =? 1)%float then dict_getitem reverse_vocabulary i else Ok ""%string)
    (range (Z.of_nat (length sent)));
  Ok (String.concat " " fields).

End Autoencoder.

(** ** The CIFAR-10 notebook *)
Module Cifar10.

Inductive layer :=
| Conv2D (filters : Z) (kernel_size : Z * Z) (input_shape : option (Z * Z * Z))
         (padding activation : string) (kernel_constraint : option Z)
| Dropout (rate : Q)
| MaxPooling2D (pool_size : Z * Z)
| Flatten
| Dense (units : Z) (activation : string) (kernel_constraint : option Z).

(** [maxnorm(3)]. *)
Definition maxnorm (m : Z) : option Z := Some m.

Record SGD_optimizer := SGD { lr : Q; momentum : Q; decay : Q; nesterov : bool }.

(** [model.compile] takes its optimizer by name or as an object. *)
Inductive optimizer_argument :=
| by_name (name : string)
| by_object (o : SGD_optimizer).

Record compile_arguments :=
  Compile { loss : string; optimizer : optimizer_argument; metrics : list string }.

Record model := Model { layers : list layer; compiled : option compile_arguments }.

Definition Sequential : model := Model [] None.
Definition add (m : model) (l : layer) : model := Model (layers m ++ [l]) (compiled m).
Definition compile (m : model) (args : compile_arguments) : model :=
  Model (layers m) (Some args).

(** Where [cifar10.load_data()] keeps the dataset, as the notebook's text
    says: "download standard datasets like CIFAR-10 and store them in the
    ~/.keras/datasets directory"; "once downloaded, subsequent calls to the
    function will load the dataset". *)
Definition dataset_cache : string := "~/.keras/datasets/cifar-10-batches-py".

Section Keras.
Context {array float backend file : Type}.

(** What is printed: ["Accuracy: %.2f%%" % v], or [None] (the value of
    [model.summary()]). *)
Inductive output :=
| Accuracy (percent : float)
| None_.

(** The calls the notebook makes into Keras, numpy and the console. *)
Inductive call :=
| load_data
| set_image_dim_ordering (order : string)
| random_seed (seed : Z)
| new_Sequential
| model_add (l : layer)
| model_compile (args : compile_arguments)
| model_summary (m : model)
| model_fit (m : model) (x y : array) (validation_data : array * array)
            (epochs batch_size : Z)
| model_evaluate (m : model) (x y : array) (verbose : Z) (scores : list float)
| print (o : output).

(** Keras, numpy and the network, as far as the notebook uses them. *)
Variable downloaded : file.
Variable unpickle : file → (array * array) * (array * array).
Variable astype_float32 : array → array.
Variable divide : array → Q → array.
Variable to_categorical : array → array.
Variable shape : array → list Z.
Variable times : float → Z → float.
(** The scores [model.evaluate] returns in a given state of the backend. *)
Variable evaluate : backend → model → array → array → list float.
(** What a call does to the backend (weights, random generator, settings). *)
Variable react : call → backend → backend.

(** The machine the notebook runs on.  [files] is what the text of the
    notebook describes of the file system, the Keras dataset directory;
    whatever else the libraries keep on disk is theirs and is not part of
    this model.  [state] is the backend and [calls] the calls made so far. *)
Record kernel :=
  Kernel { files : gmap string file; state : backend; calls : list call }.

(** A cell: it may raise, and what it did before stays done. *)
Definition nb (A : Type) : Type := kernel → py A * kernel.

Definition nb_ret {A} (a : A) : nb A := λ k, (Ok a, k).
Definition nb_bind {A B} (m : nb A) (f : A → nb B) : nb B := λ k,
  match m k with
  | (Ok a, k') => f a k'
  | (Raise e, k') => (Raise e, k')
  end.
Definition lift {A} (r : py A) : nb A := λ k, (r, k).

Definition invoke (c : call) : nb unit := λ k,
  (Ok (), Kernel (files k) (react c (state k)) (calls k ++ [c])).

Definition cifar10_load_data : nb ((array * array) * (array * array)) := λ k,
  let k' := (invoke load_data k).2 in
  match files k !! dataset_cache with
  | Some f => (Ok (unpickle f), k')
  | None =>
      (Ok (unpickle downloaded),
       Kernel (<[dataset_cache := downloaded]> (files k')) (state k') (calls k'))
  end.

Definition model_evaluate_ (m : model) (x y : array) (verbose : Z) : nb (list float) := λ k,
  let scores := evaluate (state k) m x y in
  (Ok scores, (invoke (model_evaluate m x y verbose scores) k).2).

Global Instance nb_mret : MRet nb := @nb_ret.
Global Instance nb_mbind : MBind nb := λ A B f m, nb_bind m f.

Definition add_layer (m : model) (l : layer) : nb model :=
  invoke (model_add l);; mret (add m l).

Definition compile_model (m : model) (args : compile_arguments) : nb model :=
  invoke (model_compile args);; mret (compile m args).

(** The variables the cells define. *)
Record dataset_variables :=
  Dataset { X_train : array; y_train : array; X_test : array; y_test : array }.

Record model_variables :=
  ModelVariables { model_ : model; epochs : Z; lrate : Q; decay_ : Q; sgd : SGD_optimizer }.

(** Cell 1 and cell 4:
    [(X_train, y_train), (X_test, y_test) = cifar10.load_data()]. *)
Definition load_cell : nb dataset_variables :=
  d ← cifar10_load_data;
  mret (Dataset d.1.1 d.1.2 d.2.1 d.2.2).

(** Cell 2, after its imports: [K.set_image_dim_ordering('th')]. *)
Definition backend_cell : nb unit := invoke (set_image_dim_ordering "th").

(** Cell 3: [seed = 7; numpy.random.seed(seed)]. *)
Definition seed_cell : nb Z :=
  let seed := 7 in
  invoke (random_seed seed);; mret seed.

(** Cell 5: inputs from 0-255 to 0.0-1.0. *)
Definition normalize_cell (d : dataset_variables) : nb dataset_variables :=
  let X_train := astype_float32 (X_train d) in
  let X_test := astype_float32 (X_test d) in
  let X_train := divide X_train 255 in
  let X_test := divide X_test 255 in
  mret (Dataset X_train (y_train d) X_test (y_test d)).

(** Cell 6: one hot encode outputs; [num_classes = y_test.shape[1]]. *)
Definition one_hot_cell (d : dataset_variables) : nb (dataset_variables * Z) :=
  let y_train := to_categorical (y_train d) in
  let y_test := to_categorical (y_test d) in
  num_classes ← lift (getitem (shape y_test) 1);
  mret (Dataset (X_train d) y_train (X_test d) y_test, num_classes).

(** Cell 7: the simple model. *)
Definition simple_model_cell (num_classes : Z) : nb model_variables :=
  invoke new_Sequential;;
  let model := Sequential in
  model ← add_layer model (Conv2D 32 (3, 3) (Some (3, 32, 32)) "same" "relu" (maxnorm 3));
  model ← add_layer model (Dropout 0.2%Q);
  model ← add_layer model (Conv2D 32 (3, 3) None "same" "relu" (maxnorm 3));
  model ← add_layer model (MaxPooling2D (2, 2));
  model ← add_layer model Flatten;
  model ← add_layer model (Dense 512 "relu" (maxnorm 3));
  model ← add_layer model (Dropout 0.5%Q);
  model ← add_layer model (Dense num_classes "softmax" None);
  let epochs := 10 in
  let lrate := 0.01%Q in
  let decay := Qdiv lrate (inject_Z epochs) in
  let sgd := SGD lrate 0.9%Q decay false in
  model ← compile_model model
    (Compile "categorical_crossentropy" (by_name "adagrad") ["categorical_accuracy"%string]);
  invoke (model_summary model);;
  invoke (print None_);;
  mret (ModelVariables model epochs lrate decay sgd).

(** Cell 8 and the body of cell 13: fit, evaluate, report. *)
Definition fit_and_evaluate (batch_size : Z) (d : dataset_variables) (v : model_variables)
  : nb (list float) :=
  invoke (model_fit (model_ v) (X_train d) (y_train d) (X_test d, y_test d)
                        (epochs v) batch_size);;
  scores ← model_evaluate_ (model_ v) (X_test d) (y_test d) 0;
  accuracy ← lift (getitem scores 1);
  invoke (print (Accuracy (times accuracy 100)));;
  mret scores.

Definition simple_fit_cell (d : dataset_variables) (v : model_variables) : nb (list float) :=
  fit_and_evaluate 32 d v.

(** Cell 10: the larger model. *)
Definition larger_model_cell (num_classes : Z) : nb model_variables :=
  invoke new_Sequential;;
  let model := Sequential in
  model ← add_layer model (Conv2D 32 (3, 3) (Some (3, 32, 32)) "same" "relu" None);
  model ← add_layer model (Dropout 0.2%Q);
  model ← add_layer model (Conv2D 32 (3, 3) None "same" "relu" None);
  model ← add_layer model (MaxPooling2D (2, 2));
  model ← add_layer model (Conv2D 64 (3, 3) None "same" "relu" None);
  model ← add_layer model (Dropout 0.2%Q);
  model ← add_layer model (Conv2D 64 (3, 3) None "same" "relu" None);
  model ← add_layer model (MaxPooling2D (2, 2));
  model ← add_layer model (Conv2D 128 (3, 3) None "same" "relu" None);
  model ← add_layer model (Dropout 0.2%Q);
  model ← add_layer model (Conv2D 128 (3, 3) None "same" "relu" None);
  model ← add_layer model (MaxPooling2D (2, 2));
  model ← add_layer model Flatten;
  model ← add_layer model (Dropout 0.2%Q);
  model ← add_layer model (Dense 1024 "relu" (maxnorm 3));
  model ← add_layer model (Dropout 0.2%Q);
  model ← add_layer model (Dense 512 "relu" (maxnorm 3));
  model ← add_layer model (Dropout 0.2%Q);
  model ← add_layer model (Dense num_classes "softmax" None);
  let epochs := 10 in
  let lrate := 0.01%Q in
  let decay := Qdiv lrate (inject_Z epochs) in
  let sgd := SGD lrate 0.9%Q decay false in
  model ← compile_model model
    (Compile "categorical_crossentropy" (by_name "adagrad") ["categorical_accuracy"%string]);
  invoke (model_summary model);;
  invoke (print None_);;
  mret (ModelVariables model epochs lrate decay sgd).

(** Cell 13. *)
Definition larger_fit_cell (seed : Z) (d : dataset_variables) (v : model_variables)
  : nb (list float) :=
  invoke (random_seed seed);;
  fit_and_evaluate 64 d v.

(** The notebook, cell after cell. *)
Definition notebook : nb unit :=
  load_cell;;
  backend_cell;;
  seed ← seed_cell;
  d ← load_cell;
  d ← normalize_cell d;
  dn ← one_hot_cell d;
  let d := dn.1 in
  let num_classes := dn.2 in
  v ← simple_model_cell num_classes;
  simple_fit_cell d v;;
  v ← larger_model_cell num_classes;
  larger_fit_cell seed d v;;
  mret ().

(** The stage of the pipeline a call belongs to. *)
Inductive stage := load | build | train | evaluation | report.

Definition stage_of (c : call) : option stage :=
  match c with
  | load_data => Some load
  | new_Sequential | model_add _ | model_compile _ => Some build
  | model_fit _ _ _ _ _ _ => Some train
  | model_evaluate _ _ _ _ _ => Some evaluation
  | print (Accuracy _) => Some report
  | _ => None
  end.

Global Instance stage_eq_dec : EqDecision stage.
Proof. solve_decision. Defined.

(** The stages a run goes through: those of its calls, a stage that goes on
    over several calls counted once. *)
Fixpoint merge_runs (l : list stage) : list stage :=
  match l with
  | [] => []
  | s :: l' =>
      match l' with
      | s' :: _ => if decide (s = s') then merge_runs l' else s :: merge_runs l'
      | [] => [s]
      end
  end.

Definition stages (cs : list call) : list stage := merge_runs (omap stage_of cs).

(** The arguments of the [model.compile] calls of a run. *)
Definition compile_calls (cs : list call) : list compile_arguments :=
  omap (λ c, match c with model_compile args => Some args | _ => None end) cs.

(** The [model.fit] and [model.evaluate] calls of a run. *)
Definition training_calls (cs : list call) : list call :=
  omap (λ c, match c with
             | model_fit _ _ _ _ _ _ | model_evaluate _ _ _ _ _ => Some c
             | _ => None
             end) cs.

(** The variables of a model cell, with [sgd] bound to another object. *)
Definition rebind_sgd (o : SGD_optimizer) (v : model_variables) : model_variables :=
  ModelVariables (model_ v) (epochs v) (lrate v) (decay_ v) o.

End Keras.

End Cifar10.


(** * Proofs *)

(** ** Python helpers *)


Lemma comprehension_Ok {A B} (f : A → py B) (g : A → B) (l : list A) :
  (∀ x, x ∈ l → f x = Ok (g x)) → comprehension f l = Ok (g <$> l).
Proof.
  induction l as [|x l IH]; intros Hf; [done|].
  cbn [comprehension]. rewrite Hf by left.
  rewrite IH by (intros y Hy; apply Hf; by right). done.
Qed.

Lemma dict_of_pairs_snoc {K V} `{Countable K} (l : list (K * V)) k v :
  dict_of_pairs (l ++ [(k, v)]) = <[k := v]> (dict_of_pairs l).
Proof. unfold dict_of_pairs. by rewrite foldl_snoc. Qed.

Lemma dict_of_pairs_lookup {K V} `{Countable K} (l : list (K * V)) k v :
  NoDup l.*1 → dict_of_pairs l !! k = Some v ↔ (k, v) ∈ l.
Proof.
  induction l as [|[k0 v0] l IH] using rev_ind; intros Hnd.
  - unfold dict_of_pairs; cbn. rewrite lookup_empty. split; [done|]. by intros ?%elem_of_nil.
  - rewrite dict_of_pairs_snoc. rewrite fmap_app in Hnd. cbn in Hnd.
    apply NoDup_app in Hnd as (Hl & Hk0 & _).
    rewrite elem_of_app, list_elem_of_singleton.
    destruct (decide (k0 = k)) as [->|Hne].
    + rewrite lookup_insert_eq. split.
      * intros [= ->]. by right.
      * intros [Hin|[= ->]]; [|done].
        exfalso. apply (Hk0 k); [|by left].
        apply list_elem_of_fmap. by exists (k, v).
    + rewrite lookup_insert_ne by done. rewrite IH by done.
      split; [by left|]. intros [?|[= ? ?]]; [done|congruence].
Qed.

Lemma dict_of_pairs_size {K V} `{Countable K} (l : list (K * V)) :
  NoDup l.*1 → size (dict_of_pairs l) = length l.
Proof.
  induction l as [|[k0 v0] l IH] using rev_ind; intros Hnd.
  { unfold dict_of_pairs; cbn. apply map_size_empty. }
  rewrite dict_of_pairs_snoc, length_app. cbn.
  rewrite fmap_app in Hnd. cbn in Hnd. apply NoDup_app in Hnd as (Hl & Hk0 & _).
  rewrite map_size_insert_None; [rewrite IH by done; lia|].
  destruct (dict_of_pairs l !! k0) as [v|] eqn:E; [|done].
  apply dict_of_pairs_lookup in E; [|done].
  exfalso. apply (Hk0 k0); [|by left]. apply list_elem_of_fmap. by exists (k0, v).
Qed.

(** ** Vocabulary *)

Section VocabularyFacts.
Import Autoencoder.

Lemma insert_by_count_perm x l : insert_by_count x l ≡ₚ x :: l.
Proof.
  induction l as [|y l IH]; cbn; [done|].
  case_bool_decide; [done|]. rewrite IH. apply Permutation_swap.
Qed.

Lemma sorted_by_count_perm l : sorted_by_count l ≡ₚ l.
Proof.
  induction l as [|x l IH]; cbn; [done|].
  rewrite insert_by_count_perm. by f_equiv.
Qed.

Lemma Counter_dom_from (c : gmap string Z) words :
  dom (foldl (λ c w, <[w := default 0 (c !! w) + 1]> c) c words)
  = dom c ∪ list_to_set words.
Proof.
  revert c. induction words as [|w ws IH]; intros c; cbn.
  { by rewrite (right_id_L ∅ (∪)). }
  by rewrite IH, dom_insert_L, (assoc_L (∪)), (comm_L (∪) (dom c)).
Qed.

Lemma Counter_dom words : dom (Counter words) = list_to_set words.
Proof. unfold Counter. by rewrite Counter_dom_from, dom_empty_L, (left_id_L ∅ (∪)). Qed.

Lemma Counter_size words : size (Counter words) = length (remove_dups words).
Proof.
  rewrite <- (size_dom (D := gset string)), Counter_dom.
  rewrite <- (size_list_to_set (C := gset string) (remove_dups words))
    by apply NoDup_remove_dups.
  f_equal. apply set_eq. intros w.
  by rewrite !elem_of_list_to_set, elem_of_remove_dups.
Qed.

Lemma zip_snd_fst {A B} (l : list (A * B)) :
  zip l.*2 l.*1 = (λ p, (p.2, p.1)) <$> l.
Proof. induction l as [|[a b] l IH]; cbn; [done|]. by rewrite IH. Qed.

Lemma assign_indices_lookup count d i0 :
  NoDup count.*1 →
  (∀ (k : nat) w, count.*1 !! k = Some w →
     (assign_indices count d i0).1 !! w = Some (i0 + Z.of_nat k)) ∧
  (∀ w, w ∉ count.*1 → (assign_indices count d i0).1 !! w = d !! w).
Proof.
  revert d i0. induction count as [|[w0 c0] count IH]; intros d i0 Hnd; cbn.
  { split; [by intros k w ?|done]. }
  apply NoDup_cons in Hnd as [Hw0 Hnd].
  destruct (IH (<[w0 := i0]> d) (i0 + 1) Hnd) as [IH1 IH2].
  unfold assign_indices in *. cbn. split.
  - intros [|k] w Hk; cbn in Hk.
    + injection Hk as <-. rewrite IH2 by done.
      rewrite lookup_insert_eq. f_equal. lia.
    + rewrite (IH1 k w Hk). f_equal. lia.
  - intros w Hw. apply not_elem_of_cons in Hw as [Hne Hw].
    rewrite IH2 by done. by rewrite lookup_insert_ne.
Qed.

Variable dict_iter : gmap string Z → list (string * Z).
Hypothesis dict_iter_perm : ∀ d, dict_iter d ≡ₚ map_to_list d.

Lemma most_common_NoDup c n : NoDup (most_common dict_iter c n).*1.
Proof.
  unfold most_common. rewrite fmap_take.
  eapply sublist_NoDup; [|apply sublist_take].
  rewrite sorted_by_count_perm, dict_iter_perm. apply NoDup_fst_map_to_list.
Qed.

Lemma most_common_dom c n w : w ∈ (most_common dict_iter c n).*1 → w ∈ dom c.
Proof.
  unfold most_common. rewrite fmap_take. intros Hw%subseteq_take.
  rewrite sorted_by_count_perm, dict_iter_perm in Hw.
  apply list_elem_of_fmap in Hw as ([w' v] & -> & Hin).
  apply elem_of_map_to_list in Hin. apply elem_of_dom. by exists v.
Qed.

Lemma most_common_length c n :
  length (most_common dict_iter c n) = Nat.min (Z.to_nat n) (size c).
Proof.
  unfold most_common. rewrite length_take.
  by rewrite sorted_by_count_perm, dict_iter_perm, length_map_to_list.
Qed.

Lemma build_vocab_eq words vocab_size :
  build_vocab dict_iter words vocab_size =
  let dictionary :=
    (assign_indices (("UNK"%string, -1) :: most_common dict_iter (Counter words) (vocab_size - 1))
                    ∅ 0).1 in
  (dictionary, dict_of_pairs ((λ p, (p.2, p.1)) <$> dict_iter dictionary)).
Proof.
  unfold build_vocab, assign_indices. rewrite <- zip_snd_fst.
  by destruct (foldl _ _ _).
Qed.

Lemma vocab_words_NoDup words vocab_size :
  "UNK"%string ∉ words → NoDup (vocab_words dict_iter words vocab_size).
Proof.
  intros Hunk. apply NoDup_cons. split; [|apply most_common_NoDup].
  intros Hin%most_common_dom. rewrite Counter_dom in Hin.
  by apply elem_of_list_to_set in Hin.
Qed.

Lemma vocab_words_length words vocab_size :
  1 ≤ vocab_size →
  Z.of_nat (length (vocab_words dict_iter words vocab_size))
  = 1 + Z.min (vocab_size - 1) (Z.of_nat (length (remove_dups words))).
Proof.
  intros Hvs. unfold vocab_words. cbn [length].
  rewrite length_fmap, most_common_length, Counter_size. lia.
Qed.

Lemma dictionary_lookup words vocab_size w i :
  "UNK"%string ∉ words →
  (build_vocab dict_iter words vocab_size).1 !! w = Some i ↔
  ∃ k : nat, vocab_words dict_iter words vocab_size !! k = Some w ∧ i = Z.of_nat k.
Proof.
  intros Hunk. rewrite build_vocab_eq. cbn [fst].
  pose proof (vocab_words_NoDup words vocab_size Hunk) as Hnd.
  destruct (assign_indices_lookup
              (("UNK"%string, -1) :: most_common dict_iter (Counter words) (vocab_size - 1))
              ∅ 0 Hnd) as [Hin Hout].
  split.
  - intros Hw. destruct (decide (w ∈ vocab_words dict_iter words vocab_size)) as [Hel|Hel].
    + apply list_elem_of_lookup in Hel as [k Hk]. exists k. split; [done|].
      rewrite (Hin k w Hk) in Hw. injection Hw as <-. lia.
    + rewrite (Hout w Hel), lookup_empty in Hw. done.
  - intros (k & Hk & ->). by rewrite (Hin k w Hk).
Qed.

Lemma dictionary_injective words vocab_size w1 w2 i :
  "UNK"%string ∉ words →
  (build_vocab dict_iter words vocab_size).1 !! w1 = Some i →
  (build_vocab dict_iter words vocab_size).1 !! w2 = Some i → w1 = w2.
Proof.
  intros Hunk (k1 & Hk1 & ->)%dictionary_lookup (k2 & Hk2 & Heq)%dictionary_lookup; try done.
  assert (k1 = k2) as -> by lia. congruence.
Qed.

Lemma dictionary_size words vocab_size :
  "UNK"%string ∉ words →
  size (build_vocab dict_iter words vocab_size).1 = length (vocab_words dict_iter words vocab_size).
Proof.
  intros Hunk. rewrite <- (size_dom (D := gset string)).
  rewrite <- (size_list_to_set (C := gset string) (vocab_words dict_iter words vocab_size))
    by by apply vocab_words_NoDup.
  f_equal. apply set_eq. intros w.
  rewrite elem_of_dom, elem_of_list_to_set, list_elem_of_lookup. split.
  - intros [i (k & Hk & _)%dictionary_lookup]; eauto.
  - intros [k Hk]. exists (Z.of_nat k). apply dictionary_lookup; eauto.
Qed.

Lemma swapped_items_NoDup words vocab_size :
  "UNK"%string ∉ words →
  NoDup ((λ p : string * Z, (p.2, p.1)) <$>
           dict_iter (build_vocab dict_iter words vocab_size).1).*1.
Proof.
  intros Hunk. rewrite <- list_fmap_compose.
  apply NoDup_fmap_2_strong.
  - intros [w1 i1] [w2 i2] H1 H2 Heq. cbn in Heq. subst i2.
    rewrite dict_iter_perm in H1, H2.
    apply elem_of_map_to_list in H1, H2.
    f_equal. by eapply dictionary_injective.
  - rewrite dict_iter_perm. apply NoDup_map_to_list.
Qed.

Lemma index_dictionary_lookup words vocab_size w i :
  "UNK"%string ∉ words →
  (build_vocab dict_iter words vocab_size).2 !! i = Some w ↔
  (build_vocab dict_iter words vocab_size).1 !! w = Some i.
Proof.
  intros Hunk. pose proof (swapped_items_NoDup words vocab_size Hunk) as Hnd.
  rewrite build_vocab_eq in *. cbn [fst snd] in *.
  rewrite dict_of_pairs_lookup by done.
  rewrite list_elem_of_fmap. split.
  - intros ([w' i'] & [= -> ->] & Hin). rewrite dict_iter_perm in Hin.
    by apply elem_of_map_to_list in Hin.
  - intros Hw. exists (w, i). split; [done|].
    rewrite dict_iter_perm. by apply elem_of_map_to_list.
Qed.

Lemma index_dictionary_size words vocab_size :
  "UNK"%string ∉ words →
  size (build_vocab dict_iter words vocab_size).2 = size (build_vocab dict_iter words vocab_size).1.
Proof.
  intros Hunk. pose proof (swapped_items_NoDup words vocab_size Hunk) as Hnd.
  rewrite build_vocab_eq in *. cbn [fst snd] in *.
  rewrite dict_of_pairs_size by done.
  by rewrite length_fmap, dict_iter_perm, length_map_to_list.
Qed.

(** C10. For a word list without the token UNK and [vocab_size >= 1],
    [build_vocab] returns two dictionaries that are inverse to each other,
    both of size [n = 1 + min (vocab_size - 1) (number of distinct words)];
    UNK has index 0 and the indices in use are exactly [0 .. n - 1]. *)
Theorem build_vocab_inverse_consecutive (words : list string) (vocab_size : Z) :
  "UNK"%string ∉ words → 1 ≤ vocab_size →
  let dictionary := (build_vocab dict_iter words vocab_size).1 in
  let index_dictionary := (build_vocab dict_iter words vocab_size).2 in
  let n := 1 + Z.min (vocab_size - 1) (Z.of_nat (length (remove_dups words))) in
  (∀ w i, dictionary !! w = Some i ↔ index_dictionary !! i = Some w) ∧
  dict_len dictionary = n ∧ dict_len index_dictionary = n ∧
  dictionary !! "UNK"%string = Some 0 ∧
  (∀ i, (∃ w, dictionary !! w = Some i) ↔ 0 ≤ i < n).
Proof.
  intros Hunk Hvs dictionary index_dictionary n. subst dictionary index_dictionary n.
  rewrite <- (vocab_words_length words vocab_size Hvs).
  unfold dict_len. rewrite index_dictionary_size, dictionary_size by done.
  repeat split; try done.
  - by intros ?%index_dictionary_lookup.
  - by intros ?%index_dictionary_lookup.
  - apply dictionary_lookup; [done|]. by exists 0%nat.
  - destruct H as [w (k & Hk & ->)%dictionary_lookup]; [lia|done].
  - destruct H as [w (k & Hk & ->)%dictionary_lookup]; [|done].
    apply lookup_lt_Some in Hk. lia.
  - intros [Hi0 Hin].
    destruct (lookup_lt_is_Some_2 (vocab_words dict_iter words vocab_size) (Z.to_nat i)) as [w Hw]; [lia|].
    exists w. apply dictionary_lookup; [done|]. exists (Z.to_nat i). split; [done|lia].
Qed.

(** Every word is numbered when the vocabulary is large enough. *)
Lemma dictionary_covers words vocab_size w :
  "UNK"%string ∉ words →
  Z.of_nat (length (remove_dups words)) ≤ vocab_size - 1 →
  w ∈ words → is_Some ((build_vocab dict_iter words vocab_size).1 !! w).
Proof.
  intros Hunk Hlen Hw.
  assert (w ∈ vocab_words dict_iter words vocab_size) as [k Hk]%list_elem_of_lookup.
  { right. unfold most_common. rewrite take_ge.
    - rewrite sorted_by_count_perm, dict_iter_perm.
      assert (w ∈ dom (Counter words)) as [c Hc]%elem_of_dom
        by (rewrite Counter_dom; by apply elem_of_list_to_set).
      apply list_elem_of_fmap. exists (w, c). split; [done|].
      by apply elem_of_map_to_list.
    - rewrite sorted_by_count_perm, dict_iter_perm, length_map_to_list, Counter_size. lia. }
  exists (Z.of_nat k). apply dictionary_lookup; eauto.
Qed.

Lemma index_words_in_corpus_eq (vocabulary : gmap string Z) (tokens : list string) :
  index_words_in_corpus vocabulary tokens
  = Ok ((λ token, default 0 (vocabulary !! token)) <$> tokens).
Proof.
  unfold index_words_in_corpus. apply comprehension_Ok. intros token _.
  unfold dict_contains, dict_getitem. by destruct (vocabulary !! token) as [i|].
Qed.

Lemma one_hot_encode_in_range n index :
  0 ≤ index < n →
  ∃ row, one_hot_encode n index = Ok row ∧ one_hot n index row.
Proof.
  intros Hi. unfold one_hot_encode, setitem, position, np_zeros.
  rewrite length_replicate, bool_decide_eq_true_2 by lia. cbn.
  eexists. split; [done|]. unfold one_hot.
  rewrite length_insert, length_replicate. split; [lia|]. split; [done|].
  intros j Hj. case_bool_decide as Hji.
  - replace (Z.to_nat index) with j by lia.
    apply list_lookup_insert_eq. by rewrite length_replicate.
  - rewrite list_lookup_insert_ne by lia. apply lookup_replicate_2. lia.
Qed.

Lemma comprehension_Forall2 {A B} (f : A → py B) (P : A → B → Prop) (l : list A) :
  (∀ x, x ∈ l → ∃ y, f x = Ok y ∧ P x y) →
  ∃ k, comprehension f l = Ok k ∧ Forall2 P l k.
Proof.
  induction l as [|x l IH]; intros Hf.
  { exists []. by split. }
  destruct (Hf x) as (y & Hy & HP); [by left|].
  destruct IH as (k & Hk & HF); [intros z Hz; apply Hf; by right|].
  exists (y :: k). cbn [comprehension]. rewrite Hy, Hk. split; [done|by constructor].
Qed.

(** The indices of a corpus are positions of the vocabulary. *)
Lemma indices_in_range words vocab_size tokens :
  "UNK"%string ∉ words → 1 ≤ vocab_size →
  Forall (λ i, 0 ≤ i < dict_len (build_vocab dict_iter words vocab_size).1)
         ((λ token, default 0 ((build_vocab dict_iter words vocab_size).1 !! token)) <$> tokens).
Proof.
  intros Hunk Hvs. apply Forall_fmap, Forall_forall. intros token _. cbn.
  unfold dict_len. rewrite dictionary_size by done.
  destruct (_ !! token) as [i|] eqn:E; cbn.
  - apply dictionary_lookup in E as (k & Hk%lookup_lt_Some & ->); [|done].
    unfold vocab_words in *. cbn [length] in *. lia.
  - lia.
Qed.



Lemma corpus_text_no_UNK : "UNK"%string ∉ corpus_text.
Proof. apply (bool_decide_unpack _). by vm_compute. Qed.


(** The arrays [data] and [test_data] of the notebook. *)
Lemma data_one_hot :
  ∃ rows,
    data dict_iter = Ok rows ∧ test_data dict_iter = Ok rows ∧
    Forall2 (one_hot (vocabulary_size dict_iter))
            ((λ token, default 0 (vocabulary dict_iter !! token)) <$> corpus_text) rows.
Proof.
  unfold data, test_data, corpus, test_corpus. rewrite index_words_in_corpus_eq.
  unfold mbind, py_bind.
  destruct (comprehension_Forall2 (one_hot_encode (vocabulary_size dict_iter))
              (one_hot (vocabulary_size dict_iter))
              ((λ token, default 0 (vocabulary dict_iter !! token)) <$> corpus_text))
    as (rows & Hrows & HF).
  - intros i Hi. apply one_hot_encode_in_range.
    pose proof (indices_in_range corpus_text 100 corpus_text corpus_text_no_UNK) as Hr.
    rewrite Forall_forall in Hr. apply Hr; [lia|done].
  - exists rows. by rewrite Hrows.
Qed.


Lemma data_length rows : data dict_iter = Ok rows → length rows = 14%nat.
Proof.
  destruct data_one_hot as (rows' & -> & _ & HF). intros [= <-].
  apply Forall2_length in HF. by rewrite length_fmap in HF.
Qed.

End VocabularyFacts.

(** A run of C10 on the notebook's corpus, iterating dicts in key order. *)
Lemma build_vocab_inverse_consecutive_witness :
  let dictionary := (Autoencoder.build_vocab map_to_list Autoencoder.corpus_text 100).1 in
  let index_dictionary := (Autoencoder.build_vocab map_to_list Autoencoder.corpus_text 100).2 in
  let n := 1 + Z.min (100 - 1) (Z.of_nat (length (remove_dups Autoencoder.corpus_text))) in
  (∀ w i, dictionary !! w = Some i ↔ index_dictionary !! i = Some w) ∧
  dict_len dictionary = n ∧ dict_len index_dictionary = n ∧
  dictionary !! "UNK"%string = Some 0 ∧
  (∀ i, (∃ w, dictionary !! w = Some i) ↔ 0 ≤ i < n).
Proof.
  apply (build_vocab_inverse_consecutive map_to_list).
  - intros d. reflexivity.
  - apply (bool_decide_unpack _). vm_compute. exact I.
  - lia.
Defined.

(** ** The training session *)

Section SessionFacts.
Import Autoencoder.
Context {session value file : Type}.
Variable Session : session.
Variable run_operation : session → operation → session.
Variable run_step :
  session → operation → tensor → list (tensor * list (list Z)) → session * value.
Variable run_tensor :
  session → tensor → list (tensor * list (list Z)) → session * value.

Lemma training_step_pass vs data sess (k : kernel (file := file)) (n : nat) :
  training_step run_step vs data (session_after run_step vs data sess n, k) (Z.of_nat n)
  = (session_after run_step vs data sess (S n),
     Kernel (files k) (events k ++ pass_events run_step vs data sess n)).
Proof.
  unfold training_step, pass_events, loss_val_at, session_after. rewrite Nat.iter_succ.
  destruct (run_step _ _ _ _) as [sess' loss_val]. cbn [fst snd].
  unfold emit. cbn [files events].
  case_bool_decide; [|done]. by rewrite <- app_assoc.
Qed.

(** The loop after [n] passes: invariant of [for i in range(...)]. *)
Lemma training_loop_passes vs data sess (k : kernel (file := file)) (n : nat) :
  foldl (training_step run_step vs data) (sess, k) (Z.of_nat <$> seq 0 n)
  = (session_after run_step vs data sess n,
     Kernel (files k) (events k ++ flat_map (pass_events run_step vs data sess) (seq 0 n))).
Proof.
  induction n as [|n IH].
  { cbn. rewrite app_nil_r. by destruct k. }
  rewrite seq_S, fmap_app, foldl_app, IH. cbn [fmap list_fmap foldl plus].
  rewrite training_step_pass. cbn [files events].
  rewrite flat_map_app. cbn [flat_map]. by rewrite app_nil_r, app_assoc.
Qed.

Lemma step_results_passes vs data sess (l : list nat) :
  step_results (flat_map (pass_events run_step vs data sess) l)
  = loss_val_at run_step vs data sess <$> l.
Proof.
  induction l as [|i l IH]; [done|].
  cbn [flat_map fmap list_fmap]. unfold step_results in *. rewrite omap_app, IH.
  unfold pass_events. by case_bool_decide.
Qed.

Lemma printed_lines_passes vs data sess (l : list nat) :
  printed_lines (flat_map (pass_events run_step vs data sess) l)
  = omap (λ i, if bool_decide (Z.of_nat i `mod` SKIP_STEP = 0)
               then Some (EPOCH (Z.of_nat i) NUM_TRAIN_STEPS
                                (loss_val_at run_step vs data sess i))
               else None) l.
Proof.
  induction l as [|i l IH]; [done|].
  cbn [flat_map omap list_omap]. unfold printed_lines in *. rewrite omap_app, IH.
  unfold pass_events. by case_bool_decide.
Qed.

Lemma every_tenth_of_1000 (loss_val : nat → value) :
  omap (λ i, if bool_decide (Z.of_nat i `mod` SKIP_STEP = 0)
             then Some (EPOCH (Z.of_nat i) NUM_TRAIN_STEPS (loss_val i))
             else None) (seq 0 1000)
  = (λ j, EPOCH (10 * Z.of_nat j) NUM_TRAIN_STEPS (loss_val (10 * j)%nat)) <$> seq 0 100.
Proof. vm_compute. reflexivity. Qed.

(** C7. The training loop makes exactly 1000 optimisation steps, each a run
    of [optimizer] and [loss] fed with [data]; after step [i] it prints a
    line exactly when [i mod 10 = 0], with the loss value that step
    returned: 100 lines, for [i = 0, 10, ..., 990]. *)
Theorem training_loop_steps_and_reports vs data sess (k : kernel (file := file)) :
  let st := training_loop run_step vs data (sess, k) in
  let added := drop (length (events k)) (events st.2) in
  let loss_val := loss_val_at run_step vs data sess in
  st.1 = session_after run_step vs data sess 1000 ∧
  events st.2 = events k ++ added ∧
  added = flat_map (pass_events run_step vs data sess) (seq 0 1000) ∧
  step_results added = loss_val <$> seq 0 1000 ∧
  length (step_results added) = 1000%nat ∧
  printed_lines added
    = (λ j, EPOCH (10 * Z.of_nat j) NUM_TRAIN_STEPS (loss_val (10 * j)%nat)) <$> seq 0 100 ∧
  length (printed_lines added) = 100%nat.
Proof.
  intros st added loss_val.
  assert (st = (session_after run_step vs data sess 1000,
                Kernel (files k)
                  (events k ++ flat_map (pass_events run_step vs data sess) (seq 0 1000))))
    as Hst by apply (training_loop_passes vs data sess k 1000).
  assert (added = flat_map (pass_events run_step vs data sess) (seq 0 1000)) as Hadded.
  { subst added. rewrite Hst. cbn [snd events]. by rewrite drop_app_length. }
  rewrite Hadded, Hst. cbn [fst snd events].
  rewrite step_results_passes, printed_lines_passes, every_tenth_of_1000.
  rewrite !length_fmap, !length_seq. split_and!; reflexivity.
Qed.

(** The whole cell: initialisation, the 1000 passes, then [decoder] run on
    [test_data]. *)
Lemma training_cell_eq vs data test_data (k : kernel (file := file)) :
  let sess0 := run_operation Session init in
  let sess := session_after run_step vs data sess0 1000 in
  let result := (run_tensor sess (decoder vs) [(X vs, test_data)]).2 in
  training_cell Session run_operation run_step run_tensor vs data test_data k
  = (result,
     Kernel (files k)
       (events k ++ ran_operation init ::
          flat_map (pass_events run_step vs data sess0) (seq 0 1000) ++
          [ran_tensor (decoder vs) [(X vs, test_data)] result])).
Proof.
  intros sess0 sess result. subst sess0 sess result. unfold training_cell, training_loop.
  change (range NUM_TRAIN_STEPS) with (Z.of_nat <$> seq 0 1000).
  rewrite training_loop_passes.
  destruct (run_tensor _ _ _) as [sess' result]. cbn [fst snd].
  unfold emit. cbn [files events]. by rewrite <- !app_assoc.
Qed.

(** The same cell for any operation bound to [optimizer]: what it adds to the
    record of calls. *)
Lemma training_step_with_events op vs data sess (k : kernel (file := file)) i :
  ∃ pass,
    events (training_step_with run_step op vs data (sess, k) i).2 = events k ++ pass ∧
    Forall (training_pass_event op vs data) pass ∧
    length (step_results pass) = 1%nat.
Proof.
  unfold training_step_with. destruct (run_step _ _ _ _) as [sess' loss_val].
  case_bool_decide; unfold emit; cbn [snd events].
  - exists [ran_step op (loss vs) [(X vs, data)] loss_val;
            printed (EPOCH i NUM_TRAIN_STEPS loss_val)].
    rewrite <- app_assoc. split; [done|]. split; [|done].
    repeat constructor.
  - exists [ran_step op (loss vs) [(X vs, data)] loss_val].
    split; [done|]. split; [|done]. repeat constructor.
Qed.

Lemma training_loop_with_events op vs data (l : list Z) sess (k : kernel (file := file)) :
  ∃ steps,
    events (foldl (training_step_with run_step op vs data) (sess, k) l).2 = events k ++ steps ∧
    Forall (training_pass_event op vs data) steps ∧
    length (step_results steps) = length l.
Proof.
  revert sess k. induction l as [|i l IH]; intros sess k.
  { exists []. cbn. by rewrite app_nil_r. }
  cbn [foldl].
  destruct (training_step_with_events op vs data sess k i) as (pass & Hpass & HF & Hlen).
  destruct (training_step_with run_step op vs data (sess, k) i) as [sess1 k1].
  destruct (IH sess1 k1) as (steps & Hsteps & HF' & Hlen').
  exists (pass ++ steps). cbn [snd] in *. rewrite Hsteps, Hpass, <- app_assoc.
  split; [done|]. split; [by apply Forall_app|].
  unfold step_results in *. rewrite omap_app, length_app, Hlen, Hlen'. done.
Qed.

Lemma training_cell_with_events op vs data test_data (k : kernel (file := file)) :
  let r := training_cell_with Session run_operation run_step run_tensor op vs data test_data k in
  ∃ steps,
    events r.2 = events k ++ ran_operation init :: steps ++
                   [ran_tensor (decoder vs) [(X vs, test_data)] r.1] ∧
    Forall (training_pass_event op vs data) steps ∧
    length (step_results steps) = 1000%nat.
Proof.
  intros r. subst r. unfold training_cell_with, training_loop_with.
  destruct (training_loop_with_events op vs data (range NUM_TRAIN_STEPS)
              (run_operation Session init) (emit (ran_operation init) k))
    as (steps & Hsteps & HF & Hlen).
  destruct (foldl _ _ _) as [sess1 k1].
  destruct (run_tensor _ _ _) as [sess2 out]. cbn [fst snd] in *.
  exists steps. unfold emit in *. cbn [events] in *. rewrite Hsteps, <- !app_assoc.
  split; [done|]. split; [done|]. rewrite Hlen. unfold range. by rewrite length_fmap, length_seq.
Qed.

(** With an optimizer built at the notebook's [LEARNING_RATE] it is the cell
    above. *)
Lemma training_cell_with_notebook vs data test_data (k : kernel (file := file)) :
  training_cell_with Session run_operation run_step run_tensor (optimizer vs LEARNING_RATE)
    vs data test_data k
  = training_cell Session run_operation run_step run_tensor vs data test_data k.
Proof. reflexivity. Qed.

End SessionFacts.

(** ** The arrays and the graph *)

(** C2, as it stands, fails: the path from [X] to [decoder] has six
    [tf.matmul] nodes, not five. *)
Lemma decoder_matmuls_not_five : Autoencoder.matmuls (Autoencoder.decoder 11) ≠ 5%nat.
Proof. by vm_compute. Qed.

(** C2, amended. The graph from [X] to [decoder] is a chain of exactly six
    layers [activation(matmul(input, weights) + bias)]: five with relu
    ([layer1], [layer2], [code], [layer3], [layer4]) and the output layer with
    sigmoid, of widths 1000, 250, 50, 250, 1000 and [vocabulary_size]. *)
Theorem decoder_six_layers (vocabulary_size : Z) :
  Autoencoder.matmuls (Autoencoder.decoder vocabulary_size) = 6%nat ∧
  Autoencoder.dense_layers (Autoencoder.decoder vocabulary_size)
  = Some [(Autoencoder.Relu, [vocabulary_size; 1000]); (Autoencoder.Relu, [1000; 250]);
          (Autoencoder.Relu, [250; 50]); (Autoencoder.Relu, [50; 250]);
          (Autoencoder.Relu, [250; 1000]); (Autoencoder.Sigmoid, [1000; vocabulary_size])] ∧
  Autoencoder.dense_layers (Autoencoder.code vocabulary_size)
  = Some [(Autoencoder.Relu, [vocabulary_size; 1000]); (Autoencoder.Relu, [1000; 250]);
          (Autoencoder.Relu, [250; 50])].
Proof. by split_and!. Qed.

(** ** The value of the loss *)

Section LossFacts.
Import Autoencoder.












End LossFacts.

(** ** The notebook, cell after cell *)

(** The sample cell on an array: the draw [len(a)] is one past the end. *)
Lemma sample_row {A} (a : list A) (draw : Z) :
  randint 1 (Z.of_nat (length a)) draw →
  (draw = Z.of_nat (length a) ∧ getitem a draw = Raise IndexError) ∨
  (draw < Z.of_nat (length a) ∧ ∃ x, getitem a draw = Ok x).
Proof.
  intros [H1 H2]. unfold getitem, position.
  destruct (decide (draw = Z.of_nat (length a))) as [->|Hne].
  - left. split; [done|]. by rewrite !bool_decide_eq_false_2 by lia.
  - right. split; [lia|]. rewrite bool_decide_eq_true_2 by lia. cbn.
    destruct (lookup_lt_is_Some_2 a (Z.to_nat draw)) as [x Hx]; [lia|].
    exists x. by rewrite Hx.
Qed.

Section AutoencoderFacts.
Import Autoencoder.
Context {session value file : Type}.
Variable Session : session.
Variable run_operation : session → operation → session.
Variable run_step :
  session → operation → tensor → list (tensor * list (list Z)) → session * value.
Variable run_tensor :
  session → tensor → list (tensor * list (list Z)) → session * value.
Variable dict_iter : gmap string Z → list (string * Z).
Hypothesis dict_iter_perm : ∀ d, dict_iter d ≡ₚ map_to_list d.

Local Abbreviation notebook :=
  (notebook Session run_operation run_step run_tensor dict_iter (file := file)).

Lemma notebook_cells bound draw (k : kernel (file := file)) :
  ∃ rows,
    data dict_iter = Ok rows ∧ test_data dict_iter = Ok rows ∧ length rows = 14%nat ∧
    notebook bound draw k
    = (_ ← getitem rows draw;
       optimizer_op ← optimizer_cell (vocabulary_size dict_iter) bound;
       Ok (training_cell_with Session run_operation run_step run_tensor optimizer_op
             (vocabulary_size dict_iter) rows rows k)).
Proof.
  destruct (data_one_hot dict_iter dict_iter_perm) as (rows & Hdata & Htest & _).
  exists rows. split_and!; try done.
  - by apply (data_length dict_iter dict_iter_perm).
  - unfold Autoencoder.notebook. by rewrite Hdata, Htest.
Qed.

(** Run from its first cell in a kernel that binds no [LEARNING_RATE], the
    notebook stops before the training cell. *)
Lemma notebook_fresh_kernel draw (k : kernel (file := file)) :
  randint 1 14 draw →
  notebook None draw k = Raise (if bool_decide (draw = 14) then IndexError else NameError).
Proof.
  intros Hdraw. destruct (notebook_cells None draw k) as (rows & _ & _ & Hlen & ->).
  destruct (sample_row rows draw) as [[-> ->]|[Hlt [x ->]]].
  - by rewrite Hlen.
  - rewrite Hlen. by rewrite bool_decide_eq_true_2.
  - rewrite bool_decide_eq_false_2 by lia. done.
Qed.

Lemma notebook_bound r draw (k : kernel (file := file)) :
  randint 1 14 draw → draw ≠ 14 →
  ∃ rows,
    data dict_iter = Ok rows ∧
    notebook (Some r) draw k
    = Ok (training_cell_with Session run_operation run_step run_tensor
            (optimizer (vocabulary_size dict_iter) r) (vocabulary_size dict_iter) rows rows k).
Proof.
  intros Hdraw Hne. destruct (notebook_cells (Some r) draw k) as (rows & Hdata & _ & Hlen & ->).
  exists rows. split; [done|].
  destruct (sample_row rows draw) as [[-> _]|[Hlt [x ->]]].
  - by rewrite Hlen.
  - lia.
  - done.
Qed.



(** C8. [data[randint(1, data.shape[0])]] can fail: the draw may be
    [data.shape[0]] = 14, one past the last row, and then the expression
    raises IndexError; no draw selects row 0; every other draw selects the row
    it names. *)
Theorem sample_inspection_can_raise :
  ∃ rows,
    data dict_iter = Ok rows ∧ Z.of_nat (length rows) = 14 ∧
    (∃ N, randint 1 (Z.of_nat (length rows)) N ∧ getitem rows N = Raise IndexError) ∧
    (∀ N, randint 1 (Z.of_nat (length rows)) N → position (length rows) N ≠ Ok 0%nat) ∧
    (∀ N, randint 1 (Z.of_nat (length rows)) N → N ≠ 14 →
       ∃ row, getitem rows N = Ok row ∧ rows !! Z.to_nat N = Some row).
Proof.
  destruct (data_one_hot dict_iter dict_iter_perm) as (rows & Hdata & _ & _).
  pose proof (data_length dict_iter dict_iter_perm rows Hdata) as Hlen.
  exists rows. rewrite Hlen. split_and!; try done.
  - exists 14. split; [unfold randint; lia|].
    unfold getitem, position. rewrite Hlen. done.
  - intros N [H1 H2]. unfold position.
    repeat case_bool_decide; try done; intros [= ?]; lia.
  - intros N [H1 H2] Hne. unfold getitem, position. rewrite Hlen.
    rewrite bool_decide_eq_true_2 by lia. cbn.
    destruct (lookup_lt_is_Some_2 rows (Z.to_nat N)) as [row Hrow]; [lia|].
    exists row. by rewrite Hrow.
Qed.

End AutoencoderFacts.


(** A run of C8, dicts iterated in key order. *)
Lemma sample_inspection_can_raise_witness :
  ∃ rows,
    Autoencoder.data map_to_list = Ok rows ∧ Z.of_nat (length rows) = 14 ∧
    (∃ N, randint 1 (Z.of_nat (length rows)) N ∧ getitem rows N = Raise IndexError) ∧
    (∀ N, randint 1 (Z.of_nat (length rows)) N → position (length rows) N ≠ Ok 0%nat) ∧
    (∀ N, randint 1 (Z.of_nat (length rows)) N → N ≠ 14 →
       ∃ row, getitem rows N = Ok row ∧ rows !! Z.to_nat N = Some row).
Proof.
  apply (sample_inspection_can_raise map_to_list).
  intros d. reflexivity.
Defined.

(** ** The CIFAR-10 notebook *)

Section KerasFacts.
Import Cifar10.
Context {array float backend file : Type}.
Variable downloaded : file.
Variable unpickle : file → (array * array) * (array * array).
Variable astype_float32 : array → array.
Variable divide : array → Q → array.
Variable to_categorical : array → array.
Variable shape : array → list Z.
Variable times : float → Z → float.
Variable evaluate : backend → model → array → array → list float.
Variable react : call (array := array) (float := float) → backend → backend.

Abbreviation kernel := (kernel (array := array) (float := float) (backend := backend) (file := file)).
Abbreviation nb := (nb (array := array) (float := float) (backend := backend) (file := file)).

Local Abbreviation adagrad :=
  (Compile "categorical_crossentropy" (by_name "adagrad") ["categorical_accuracy"%string]).

(** *** Which cells touch the files *)

Local Abbreviation cached k := (is_Some (files k !! dataset_cache)).






(** *** The calls of a run *)

Lemma getitem_1_Ok {A} (l : list A) : (1 < length l)%nat → ∃ a, getitem l 1 = Ok a.
Proof.
  intros Hl. unfold getitem, position. rewrite bool_decide_eq_true_2 by lia. cbn.
  destruct l as [|a0 [|a1 l]]; cbn in *; try lia. eauto.
Qed.

Lemma load_data_eq (k : kernel) :
  cifar10_load_data downloaded unpickle react k
  = (Ok (unpickle (default downloaded (files k !! dataset_cache))),
     Kernel (match files k !! dataset_cache with
             | Some _ => files k
             | None => <[dataset_cache := downloaded]> (files k)
             end)
            (react load_data (state k)) (calls k ++ [load_data])).
Proof. unfold cifar10_load_data. by destruct (files k !! dataset_cache). Qed.

Ltac run_cells :=
  cbv beta iota zeta delta
    [notebook load_cell backend_cell seed_cell normalize_cell one_hot_cell
     simple_model_cell simple_fit_cell larger_model_cell larger_fit_cell
     fit_and_evaluate add_layer compile_model model_evaluate_
     mbind nb_mbind nb_bind mret nb_mret nb_ret lift invoke
     fst snd files state calls app X_train y_train X_test y_test
     model_ epochs Sequential add compile layers compiled].

(** The same for one model cell, from a kernel that is a variable. *)
Ltac run_model_cell :=
  cbv beta iota zeta delta
    [simple_model_cell larger_model_cell add_layer compile_model
     mbind nb_mbind nb_bind mret nb_mret nb_ret invoke
     fst snd files state calls model_ Sequential add compile layers compiled].

Ltac run_getitem H :=
  match goal with
  | |- context [getitem ?l 1] =>
      let a := fresh "a" in
      let Ha := fresh "Ha" in
      destruct (getitem_1_Ok l) as [a Ha]; [apply H|]; rewrite Ha
  end.

Ltac walk Hj j :=
  lazymatch type of Hj with
  | [] !! _ = _ => discriminate Hj
  | (?c :: ?l) !! _ = ?r =>
      destruct j as [|j];
      [ change (Some c = r) in Hj;
        first
          [ discriminate Hj
          | injection Hj as <-; eexists _, _, _, _, _, _;
            split_and!; [reflexivity|reflexivity|eassumption|reflexivity] ]
      | change (l !! j = r) in Hj; walk Hj j ]
  end.

(** The CIFAR-10 notebook is a linear script: it loads the data, then for
    the simple and again for the larger model it builds the model, trains it,
    evaluates it and prints the accuracy; every accuracy line comes right
    after a [model.evaluate] and reports 100 times the second of the scores
    that call returned; the last call of the run is such a line. *)
Lemma cifar10_pipeline_order (fs : gmap string file) (b : backend) :
  (∀ a, (1 < length (shape (to_categorical a)))%nat) →
  (∀ st m x y, (1 < length (evaluate st m x y))%nat) →
  ∃ k',
    notebook downloaded unpickle astype_float32 divide to_categorical shape times
             evaluate react (Kernel fs b []) = (Ok (), k') ∧
    stages (calls k')
      = [load; build; train; evaluation; report; build; train; evaluation; report] ∧
    (∀ (j : nat) v, calls k' !! j = Some (print (Accuracy v)) →
       ∃ j' m x y scores accuracy,
         j = S j' ∧ calls k' !! j' = Some (model_evaluate m x y 0 scores) ∧
         getitem scores 1 = Ok accuracy ∧ v = times accuracy 100) ∧
    (∃ v, last (calls k') = Some (print (Accuracy v))).
Proof.
  intros Hshape Hscores.
  run_cells. rewrite load_data_eq. run_cells. rewrite load_data_eq. run_cells.
  run_getitem Hshape. run_cells.
  run_getitem Hscores. run_cells.
  run_getitem Hscores. run_cells.
  eexists. split; [reflexivity|]. cbn [calls].
  split; [reflexivity|]. split; [|eexists; reflexivity].
  intros j v Hj. walk Hj j.
Qed.

(** C9. Both models are compiled with the optimizer named adagrad; the SGD
    object built just before (learning rate 0.01, momentum 0.9, decay
    lrate/epochs) stays in the variable [sgd], is not an argument of
    [model.compile], and the cells that fit and evaluate do the same
    whatever [sgd] is bound to. *)
Theorem compiled_with_adagrad_sgd_unused (num_classes : Z) (k : kernel) :
  (∃ v k',
     simple_model_cell react num_classes k = (Ok v, k') ∧
     compiled (model_ v) = Some adagrad ∧
     compile_calls (drop (length (calls k)) (calls k')) = [adagrad] ∧
     sgd v = SGD 0.01%Q 0.9%Q (Qdiv 0.01%Q (inject_Z 10)) false) ∧
  (∃ v k',
     larger_model_cell react num_classes k = (Ok v, k') ∧
     compiled (model_ v) = Some adagrad ∧
     compile_calls (drop (length (calls k)) (calls k')) = [adagrad] ∧
     sgd v = SGD 0.01%Q 0.9%Q (Qdiv 0.01%Q (inject_Z 10)) false) ∧
  (∀ o d v (k : kernel),
     simple_fit_cell times evaluate react d (rebind_sgd o v) k
     = simple_fit_cell times evaluate react d v k) ∧
  (∀ o seed d v (k : kernel),
     larger_fit_cell times evaluate react seed d (rebind_sgd o v) k
     = larger_fit_cell times evaluate react seed d v k).
Proof.
  split_and!; [| |done|done].
  - destruct k as [fs st cs]. run_model_cell.
    eexists _, _. split; [reflexivity|]. cbn [model_ sgd calls].
    split; [reflexivity|]. split; [|reflexivity].
    rewrite <- !app_assoc, drop_app_length. reflexivity.
  - destruct k as [fs st cs]. run_model_cell.
    eexists _, _. split; [reflexivity|]. cbn [model_ sgd calls].
    split; [reflexivity|]. split; [|reflexivity].
    rewrite <- !app_assoc, drop_app_length. reflexivity.
Qed.


(** X12. What the two models are trained and evaluated on: the inputs are
    the loaded images cast to float32 and divided by 255, the labels are
    one-hot encoded; both fits validate on the test set, which is also what
    both evaluations use; the simple model is fit with batches of 32, the
    larger one with batches of 64, both for 10 epochs; both models are the
    compiled ones and end in a softmax layer as wide as the one-hot test
    labels. *)
Theorem training_data_flow (fs : gmap string file) (b : backend) :
  (∀ a, (1 < length (shape (to_categorical a)))%nat) →
  (∀ st m x y, (1 < length (evaluate st m x y))%nat) →
  let loaded := unpickle (default downloaded (fs !! dataset_cache)) in
  let X_train := divide (astype_float32 loaded.1.1) 255 in
  let y_train := to_categorical loaded.1.2 in
  let X_test := divide (astype_float32 loaded.2.1) 255 in
  let y_test := to_categorical loaded.2.2 in
  ∃ k' num_classes m1 m2 scores1 scores2,
    notebook downloaded unpickle astype_float32 divide to_categorical shape times
             evaluate react (Kernel fs b []) = (Ok (), k') ∧
    getitem (shape y_test) 1 = Ok num_classes ∧
    training_calls (calls k')
      = [model_fit m1 X_train y_train (X_test, y_test) 10 32;
         model_evaluate m1 X_test y_test 0 scores1;
         model_fit m2 X_train y_train (X_test, y_test) 10 64;
         model_evaluate m2 X_test y_test 0 scores2] ∧
    compiled m1 = Some adagrad ∧ compiled m2 = Some adagrad ∧
    last (layers m1) = Some (Dense num_classes "softmax" None) ∧
    last (layers m2) = Some (Dense num_classes "softmax" None).
Proof.
  intros Hshape Hscores loaded X_train y_train X_test y_test.
  subst loaded X_train y_train X_test y_test.
  assert (default downloaded
            (match fs !! dataset_cache with
             | Some _ => fs
             | None => <[dataset_cache := downloaded]> fs
             end !! dataset_cache)
          = default downloaded (fs !! dataset_cache)) as Hsame.
  { destruct (fs !! dataset_cache) eqn:E; [by rewrite E|]. by rewrite lookup_insert_eq. }
  run_cells. rewrite load_data_eq. run_cells. rewrite load_data_eq. run_cells.
  rewrite Hsame.
  run_getitem Hshape. run_cells.
  run_getitem Hscores. run_cells.
  run_getitem Hscores. run_cells.
  eexists _, _, _, _, _, _. split; [reflexivity|]. cbn [calls].
  split_and!; reflexivity.
Qed.

End KerasFacts.



(** C6. The CIFAR-10 notebook is a linear script: it loads the data, then
    for the simple and again for the larger model it builds the model, trains
    it, evaluates it and prints the accuracy; every accuracy line comes right
    after a [model.evaluate] and reports 100 times the second of the scores
    that call returned; the last call of the run is such a line.  The
    autoencoder notebook is not: run from its first cell in a kernel that has
    run nothing else, it stops at the cell that builds the optimizer, which
    reads [LEARNING_RATE] one cell before the notebook binds it (NameError),
    or already at the cell that shows a random row, when the draw is 14
    (IndexError); the training cell is not reached.  In a kernel where the
    name is bound and with another draw, the same cells run through: [init],
    the 1000 steps, then [decoder] on the test array. *)
Theorem pipeline_order
    {session value array float backend file : Type}
    (Session : session)
    (run_operation : session → Autoencoder.operation → session)
    (run_step : session → Autoencoder.operation → Autoencoder.tensor →
                list (Autoencoder.tensor * list (list Z)) → session * value)
    (run_tensor : session → Autoencoder.tensor →
                  list (Autoencoder.tensor * list (list Z)) → session * value)
    (dict_iter : gmap string Z → list (string * Z))
    (downloaded : file)
    (unpickle : file → (array * array) * (array * array))
    (astype_float32 : array → array) (divide : array → Q → array)
    (to_categorical : array → array) (shape : array → list Z)
    (times : float → Z → float)
    (evaluate : backend → Cifar10.model → array → array → list float)
    (react : Cifar10.call (array := array) (float := float) → backend → backend) :
  (∀ d, dict_iter d ≡ₚ map_to_list d) →
  (∀ a, (1 < length (shape (to_categorical a)))%nat) →
  (∀ st m x y, (1 < length (evaluate st m x y))%nat) →
  let autoencoder :=
    Autoencoder.notebook (file := file) Session run_operation run_step run_tensor dict_iter in
  let vs := Autoencoder.vocabulary_size dict_iter in
  (∀ (fs : gmap string file) (b : backend),
     ∃ k',
       Cifar10.notebook downloaded unpickle astype_float32 divide to_categorical shape times
                        evaluate react (Cifar10.Kernel fs b []) = (Ok (), k') ∧
       Cifar10.stages (Cifar10.calls k')
       = [Cifar10.load; Cifar10.build; Cifar10.train; Cifar10.evaluation; Cifar10.report;
          Cifar10.build; Cifar10.train; Cifar10.evaluation; Cifar10.report] ∧
       (∀ (j : nat) v, Cifar10.calls k' !! j = Some (Cifar10.print (Cifar10.Accuracy v)) →
          ∃ j' m x y scores accuracy,
            j = S j' ∧ Cifar10.calls k' !! j' = Some (Cifar10.model_evaluate m x y 0 scores) ∧
            getitem scores 1 = Ok accuracy ∧ v = times accuracy 100) ∧
       (∃ v, last (Cifar10.calls k') = Some (Cifar10.print (Cifar10.Accuracy v)))) ∧
  (∀ draw k,
     randint 1 14 draw →
     autoencoder None draw k = Raise (if bool_decide (draw = 14) then IndexError else NameError)) ∧
  (∀ r draw k,
     randint 1 14 draw → draw ≠ 14 →
     ∃ rows out k' steps,
       Autoencoder.data dict_iter = Ok rows ∧
       autoencoder (Some r) draw k = Ok (out, k') ∧
       Autoencoder.events k'
       = Autoencoder.events k ++ Autoencoder.ran_operation Autoencoder.init :: steps ++
           [Autoencoder.ran_tensor (Autoencoder.decoder vs) [(Autoencoder.X vs, rows)] out] ∧
       Forall (Autoencoder.training_pass_event (Autoencoder.optimizer vs r) vs rows) steps ∧
       length (Autoencoder.step_results steps) = 1000%nat).
Proof.
  intros Hperm Hshape Hscores autoencoder vs. split_and!.
  - intros fs b. by apply cifar10_pipeline_order.
  - intros draw k Hdraw. by apply notebook_fresh_kernel.
  - intros r draw k Hdraw Hne. subst autoencoder.
    destruct (notebook_bound Session run_operation run_step run_tensor dict_iter Hperm
                r draw k Hdraw Hne) as (rows & Hdata & ->).
    destruct (training_cell_with_events Session run_operation run_step run_tensor
                (Autoencoder.optimizer vs r) vs rows rows k) as (steps & Hev & HF & Hlen).
    fold vs.
    destruct (Autoencoder.training_cell_with _ _ _ _ _ _ _ _ _) as [out k'].
    by exists rows, out, k', steps.
Qed.

(** A run of C6: dicts iterated in key order and a session that counts its
    steps; arrays without content, scores [1; 2], a backend without state and
    no dataset stored. *)
Lemma pipeline_order_witness :
  let cifar10 :=
    Cifar10.notebook (array := unit) (float := Z) (backend := unit) (file := string)
      "cifar-10-python.tar.gz"%string
      (λ _, (((), ()), ((), ()))) id (λ a _, a) id (λ _, [10000; 10]) Z.mul
      (λ _ _ _ _, [1; 2]) (λ _ b, b) in
  let autoencoder :=
    Autoencoder.notebook (file := string) 0%nat (λ s _, s) (λ s _ _ _, (S s, s))
      (λ s _ _, (s, s)) map_to_list in
  let vs := Autoencoder.vocabulary_size map_to_list in
  (∀ (fs : gmap string string) (b : unit),
     ∃ k',
       cifar10 (Cifar10.Kernel fs b []) = (Ok (), k') ∧
       Cifar10.stages (Cifar10.calls k')
       = [Cifar10.load; Cifar10.build; Cifar10.train; Cifar10.evaluation; Cifar10.report;
          Cifar10.build; Cifar10.train; Cifar10.evaluation; Cifar10.report] ∧
       (∀ (j : nat) v, Cifar10.calls k' !! j = Some (Cifar10.print (Cifar10.Accuracy v)) →
          ∃ j' m x y scores accuracy,
            j = S j' ∧ Cifar10.calls k' !! j' = Some (Cifar10.model_evaluate m x y 0 scores) ∧
            getitem scores 1 = Ok accuracy ∧ v = Z.mul accuracy 100) ∧
       (∃ v, last (Cifar10.calls k') = Some (Cifar10.print (Cifar10.Accuracy v)))) ∧
  (∀ draw k,
     randint 1 14 draw →
     autoencoder None draw k = Raise (if bool_decide (draw = 14) then IndexError else NameError)) ∧
  (∀ r draw k,
     randint 1 14 draw → draw ≠ 14 →
     ∃ rows out k' steps,
       Autoencoder.data map_to_list = Ok rows ∧
       autoencoder (Some r) draw k = Ok (out, k') ∧
       Autoencoder.events k'
       = Autoencoder.events k ++ Autoencoder.ran_operation Autoencoder.init :: steps ++
           [Autoencoder.ran_tensor (Autoencoder.decoder vs) [(Autoencoder.X vs, rows)] out] ∧
       Forall (Autoencoder.training_pass_event (Autoencoder.optimizer vs r) vs rows) steps ∧
       length (Autoencoder.step_results steps) = 1000%nat).
Proof.
  apply (pipeline_order (array := unit) (float := Z) (backend := unit) (file := string)
           0%nat (λ s _, s) (λ s _ _ _, (S s, s)) (λ s _ _, (s, s)) map_to_list
           "cifar-10-python.tar.gz"%string
           (λ _, (((), ()), ((), ()))) id (λ a _, a) id (λ _, [10000; 10]) Z.mul
           (λ _ _ _ _, [1; 2]) (λ _ b, b)).
  - intros d. reflexivity.
  - intros a. simpl. lia.
  - intros st m x y. simpl. lia.
Defined.

(** * Further properties of the code *)

(** ** The vocabulary, continued *)

Lemma comprehension_fmap {A B C} (f : B → py C) (g : A → B) (l : list A) :
  comprehension f (g <$> l) = comprehension (f ∘ g) l.
Proof. induction l as [|x l IH]; [done|]. cbn. by rewrite IH. Qed.

Section VocabularyOrder.
Import Autoencoder.

Lemma occurrences_cons x words w :
  occurrences (x :: words) w = (if decide (w = x) then 1 else 0) + occurrences words w.
Proof.
  unfold occurrences. rewrite filter_cons. destruct (decide (w = x)); cbn [length]; lia.
Qed.

Lemma occurrences_pos words w : w ∈ words ↔ 0 < occurrences words w.
Proof.
  induction words as [|x words IH].
  - split; [by intros ?%elem_of_nil|]. unfold occurrences. cbn. lia.
  - rewrite occurrences_cons, elem_of_cons.
    assert (0 ≤ occurrences words w) by (unfold occurrences; lia).
    destruct (decide (w = x)); [split; [lia|by left]|].
    rewrite IH. split; [intros [?|?]; [done|lia]|intros ?; right; lia].
Qed.

Lemma Counter_lookup_from (c : gmap string Z) words w :
  foldl (λ c w, <[w := default 0 (c !! w) + 1]> c) c words !! w
  = if decide (occurrences words w = 0) then c !! w
    else Some (default 0 (c !! w) + occurrences words w).
Proof.
  revert c. induction words as [|x words IH]; intros c; cbn [foldl]; [done|].
  rewrite IH, occurrences_cons.
  assert (0 ≤ occurrences words w) by (unfold occurrences; lia).
  destruct (decide (w = x)) as [->|Hne].
  - rewrite lookup_insert_eq. cbn [default from_option id].
    rewrite (decide_False (P := 1 + _ = 0)) by lia.
    case_decide as H0; f_equal; lia.
  - rewrite lookup_insert_ne by done. by rewrite Z.add_0_l.
Qed.

(** [Counter(words)[w]] is the number of occurrences of [w]; words that do not
    occur are no keys. *)
Lemma Counter_lookup words w c :
  Counter words !! w = Some c ↔ c = occurrences words w ∧ w ∈ words.
Proof.
  unfold Counter. rewrite Counter_lookup_from, lookup_empty, occurrences_pos.
  case_decide as H0; cbn.
  - split; [done|]. lia.
  - assert (0 ≤ occurrences words w) by (unfold occurrences; lia).
    split; [intros [= <-]; lia|]. intros [-> _]. f_equal; lia.
Qed.

(** Insertion keeps a list sorted by descending count. *)
Lemma insert_by_count_sorted x l :
  StronglySorted by_count l → StronglySorted by_count (insert_by_count x l).
Proof.
  induction 1 as [|y l Hl IH Hy]; cbn [insert_by_count].
  { repeat constructor. }
  case_bool_decide as Hxy.
  - constructor; [by constructor|]. constructor; [done|].
    eapply Forall_impl; [exact Hy|]. unfold by_count. intros z ?. lia.
  - constructor; [done|]. rewrite insert_by_count_perm.
    constructor; [unfold by_count; lia|done].
Qed.

Lemma sorted_by_count_sorted l : StronglySorted by_count (sorted_by_count l).
Proof.
  induction l as [|x l IH]; cbn; [constructor|]. by apply insert_by_count_sorted.
Qed.

Lemma StronglySorted_lookup {A} (R : A → A → Prop) (l : list A) i j x y :
  StronglySorted R l → (i < j)%nat → l !! i = Some x → l !! j = Some y → R x y.
Proof.
  intros Hl. revert i j. induction Hl as [|z l Hl IH Hz]; intros i j Hij Hi Hj; [done|].
  destruct j as [|j]; [lia|]. cbn in Hj. destruct i as [|i]; cbn in Hi.
  - injection Hi as <-. rewrite Forall_forall in Hz. apply Hz.
    by eapply list_elem_of_lookup_2.
  - apply (IH i j); [lia|done..].
Qed.

Variable dict_iter : gmap string Z → list (string * Z).
Hypothesis dict_iter_perm : ∀ d, dict_iter d ≡ₚ map_to_list d.

Lemma sorted_items_lookup words (p : nat) w c :
  sorted_by_count (dict_iter (Counter words)) !! p = Some (w, c) →
  c = occurrences words w ∧ w ∈ words.
Proof.
  intros Hp%list_elem_of_lookup_2.
  rewrite sorted_by_count_perm, dict_iter_perm in Hp.
  by apply elem_of_map_to_list, Counter_lookup in Hp.
Qed.

Lemma sorted_items_word words w :
  w ∈ words →
  ∃ p, sorted_by_count (dict_iter (Counter words)) !! p = Some (w, occurrences words w).
Proof.
  intros Hw. apply list_elem_of_lookup_1.
  rewrite sorted_by_count_perm, dict_iter_perm.
  by apply elem_of_map_to_list, Counter_lookup.
Qed.

Lemma vocab_words_item words vocab_size (p : nat) w :
  vocab_words dict_iter words vocab_size !! S p = Some w ↔
  sorted_by_count (dict_iter (Counter words)) !! p = Some (w, occurrences words w) ∧
  (p < Z.to_nat (vocab_size - 1))%nat.
Proof.
  unfold vocab_words, most_common. cbn [lookup list_lookup].
  rewrite list_lookup_fmap_Some. split.
  - intros ([w' c] & -> & [Hp Hlt]%lookup_take_Some). cbn.
    destruct (sorted_items_lookup _ _ _ _ Hp) as [-> _]. done.
  - intros [Hp Hlt]. exists (w, occurrences words w). split; [done|].
    by apply lookup_take_Some.
Qed.

(** X1. [build_vocab] keeps the most frequent words and numbers them by
    descending frequency. *)
Theorem build_vocab_most_frequent (words : list string) (vocab_size : Z) :
  "UNK"%string ∉ words →
  let dictionary := (build_vocab dict_iter words vocab_size).1 in
  (∀ w i, dictionary !! w = Some i → 0 < i → w ∈ words) ∧
  (∀ w1 w2 i1 i2,
     dictionary !! w1 = Some i1 → dictionary !! w2 = Some i2 → 0 < i1 < i2 →
     occurrences words w2 ≤ occurrences words w1) ∧
  (∀ w1 w2 i2,
     w1 ∈ words → dictionary !! w1 = None → dictionary !! w2 = Some i2 → 0 < i2 →
     occurrences words w1 ≤ occurrences words w2).
Proof.
  intros Hunk dictionary. subst dictionary.
  pose proof (sorted_by_count_sorted (dict_iter (Counter words))) as Hsorted.
  assert (∀ w i, (build_vocab dict_iter words vocab_size).1 !! w = Some i ↔
                 ∃ k : nat, vocab_words dict_iter words vocab_size !! k = Some w ∧
                            i = Z.of_nat k) as Hlook
    by (intros; by apply dictionary_lookup).
  split_and!.
  - intros w i (k & Hk & ->)%Hlook Hi.
    destruct k as [|p]; [lia|].
    apply vocab_words_item in Hk as [Hp _]. by apply sorted_items_lookup in Hp as [_ ?].
  - intros w1 w2 i1 i2 (k1 & Hk1 & ->)%Hlook (k2 & Hk2 & ->)%Hlook Hi.
    destruct k1 as [|p1]; [lia|]. destruct k2 as [|p2]; [lia|].
    apply vocab_words_item in Hk1 as [Hp1 _], Hk2 as [Hp2 _].
    exact (StronglySorted_lookup by_count _ p1 p2 _ _ Hsorted ltac:(lia) Hp1 Hp2).
  - intros w1 w2 i2 Hw1 Hnone (k2 & Hk2 & ->)%Hlook Hi.
    destruct k2 as [|p2]; [lia|]. apply vocab_words_item in Hk2 as [Hp2 Hlt2].
    destruct (sorted_items_word words w1 Hw1) as [p1 Hp1].
    destruct (decide (p1 < Z.to_nat (vocab_size - 1))%nat) as [Hlt1|Hge1].
    + assert ((build_vocab dict_iter words vocab_size).1 !! w1 = Some (Z.of_nat (S p1))) as Hsome.
      { apply Hlook. exists (S p1). split; [|done]. by apply vocab_words_item. }
      congruence.
    + exact (StronglySorted_lookup by_count _ p2 p1 _ _ Hsorted ltac:(lia) Hp2 Hp1).
Qed.

Lemma dict_iter_empty : dict_iter ∅ = [].
Proof. apply Permutation_nil_r. by rewrite dict_iter_perm, map_to_list_empty. Qed.

Lemma dict_iter_singleton w i : dict_iter {[w := i]} = [(w, i)].
Proof. apply Permutation_singleton_r. by rewrite dict_iter_perm, map_to_list_singleton. Qed.

(** X2. With room for no word ([vocab_size <= 1]) or with no word at all the
    vocabulary is UNK alone, whatever the words are. *)
Theorem build_vocab_only_UNK (words : list string) (vocab_size : Z) :
  vocab_size ≤ 1 ∨ words = [] →
  build_vocab dict_iter words vocab_size = ({["UNK"%string := 0]}, {[0 := "UNK"%string]}).
Proof.
  intros Hsmall.
  assert (most_common dict_iter (Counter words) (vocab_size - 1) = []) as Hmc.
  { unfold most_common. destruct Hsmall as [Hvs| ->].
    - by replace (Z.to_nat (vocab_size - 1)) with 0%nat by lia.
    - unfold Counter. cbn [foldl]. rewrite dict_iter_empty. cbn. by rewrite take_nil. }
  rewrite build_vocab_eq, Hmc. unfold assign_indices. cbn [foldl fst].
  change (<["UNK"%string := 0]> (∅ : gmap string Z)) with ({["UNK"%string := 0]} : gmap string Z).
  by rewrite dict_iter_singleton.
Qed.

Lemma most_common_all words vocab_size w :
  Z.of_nat (length (remove_dups words)) ≤ vocab_size - 1 →
  w ∈ words → w ∈ (most_common dict_iter (Counter words) (vocab_size - 1)).*1.
Proof.
  intros Hlen Hw. unfold most_common. rewrite take_ge.
  - rewrite sorted_by_count_perm, dict_iter_perm.
    apply list_elem_of_fmap. exists (w, occurrences words w). split; [done|].
    by apply elem_of_map_to_list, Counter_lookup.
  - rewrite sorted_by_count_perm, dict_iter_perm, length_map_to_list, Counter_size. lia.
Qed.

(** X3. A corpus that contains the token UNK breaks the numbering: when the
    vocabulary has room for every word, UNK is renumbered, no word has index 0,
    the indices are 1..m for the m distinct words while the dictionary has
    only m entries; so index 0 (what unknown tokens get) has no entry in the
    reverse dictionary, and the word of index m cannot be one-hot encoded. *)
Theorem build_vocab_UNK_in_words (words : list string) (vocab_size : Z) :
  "UNK"%string ∈ words →
  Z.of_nat (length (remove_dups words)) ≤ vocab_size - 1 →
  let dictionary := (build_vocab dict_iter words vocab_size).1 in
  let index_dictionary := (build_vocab dict_iter words vocab_size).2 in
  let m := Z.of_nat (length (remove_dups words)) in
  dict_len dictionary = m ∧
  (∀ i, (∃ w, dictionary !! w = Some i) ↔ 1 ≤ i ≤ m) ∧
  dict_getitem index_dictionary 0 = Raise KeyError ∧
  (∃ w, w ∈ words ∧ dictionary !! w = Some m ∧
        one_hot_encode (dict_len dictionary) m = Raise IndexError).
Proof.
  intros Hunk Hlen dictionary index_dictionary m.
  set (mc := most_common dict_iter (Counter words) (vocab_size - 1)).
  assert (NoDup mc.*1) as Hnd by apply most_common_NoDup, dict_iter_perm.
  assert (Z.of_nat (length mc.*1) = m) as Hlmc.
  { subst mc m. rewrite length_fmap, most_common_length, Counter_size by done. lia. }
  assert ("UNK"%string ∈ mc.*1) as Hin by by apply most_common_all.
  assert (dictionary = (assign_indices mc {["UNK"%string := 0]} 1).1) as Hd.
  { subst dictionary. by rewrite build_vocab_eq. }
  destruct (assign_indices_lookup mc {["UNK"%string := 0]} 1 Hnd) as [Hpos Hout].
  rewrite <- Hd in Hpos, Hout.
  assert (∀ w i, dictionary !! w = Some i ↔
                 ∃ k : nat, mc.*1 !! k = Some w ∧ i = 1 + Z.of_nat k) as Hlook.
  { intros w i. split.
    - intros Hw. destruct (decide (w ∈ mc.*1)) as [[k Hk]%list_elem_of_lookup_1|Hnot].
      + exists k. split; [done|]. rewrite (Hpos k w Hk) in Hw. by injection Hw.
      + rewrite (Hout w Hnot) in Hw. apply lookup_singleton_Some in Hw as [<- _]. done.
    - intros (k & Hk & ->). by apply Hpos. }
  assert (dict_len dictionary = m) as Hsize.
  { unfold dict_len. rewrite <- Hlmc. f_equal.
    rewrite <- (size_dom (D := gset string)).
    rewrite <- (size_list_to_set (C := gset string) mc.*1) by done.
    f_equal. apply set_eq. intros w.
    rewrite elem_of_dom, elem_of_list_to_set, list_elem_of_lookup. split.
    - intros [i (k & Hk & _)%Hlook]. eauto.
    - intros [k Hk]. exists (1 + Z.of_nat k). apply Hlook. eauto. }
  split_and!; [done| | |].
  - intros i. split.
    + intros [w (k & Hk%lookup_lt_Some & ->)%Hlook]. lia.
    + intros Hi. destruct (lookup_lt_is_Some_2 mc.*1 (Z.to_nat (i - 1))) as [w Hw]; [lia|].
      exists w. apply Hlook. exists (Z.to_nat (i - 1)). split; [done|lia].
  - unfold dict_getitem. destruct (index_dictionary !! 0) as [w|] eqn:E; [|done].
    exfalso.
    assert (index_dictionary
            = dict_of_pairs ((λ p : string * Z, (p.2, p.1)) <$> dict_iter dictionary)) as Hr.
    { subst index_dictionary dictionary. by rewrite build_vocab_eq. }
    rewrite Hr in E. apply dict_of_pairs_lookup in E.
    + apply list_elem_of_fmap in E as ([w' i'] & [= <- ->] & Hel).
      rewrite dict_iter_perm in Hel. apply elem_of_map_to_list in Hel.
      apply Hlook in Hel as (k & _ & ?). lia.
    + rewrite <- list_fmap_compose. apply NoDup_fmap_2_strong.
      * intros [w1 i1] [w2 i2] H1 H2 Heq. cbn in Heq. subst i2.
        rewrite dict_iter_perm in H1, H2. apply elem_of_map_to_list in H1, H2.
        apply Hlook in H1 as (k1 & Hk1 & ->), H2 as (k2 & Hk2 & Heq).
        assert (k1 = k2) as -> by lia. f_equal. congruence.
      * rewrite dict_iter_perm. apply NoDup_map_to_list.
  - assert (0 < m) as Hm.
    { rewrite <- Hlmc. apply list_elem_of_lookup_1 in Hin as [k Hk%lookup_lt_Some]. lia. }
    destruct (lookup_lt_is_Some_2 mc.*1 (Z.to_nat (m - 1))) as [w Hw]; [lia|].
    exists w. split_and!.
    + apply list_elem_of_lookup_2 in Hw. apply most_common_dom in Hw; [|done].
      rewrite Counter_dom in Hw. by apply elem_of_list_to_set in Hw.
    + apply Hlook. exists (Z.to_nat (m - 1)). split; [done|lia].
    + rewrite Hsize. unfold one_hot_encode, setitem, position, np_zeros.
      rewrite length_replicate.
      rewrite bool_decide_eq_false_2, bool_decide_eq_false_2 by lia. done.
Qed.

(** X4. Indexing a list of tokens and reading the indices back in the
    reverse dictionary never raises and returns the tokens, each unknown token
    replaced by UNK. *)
Theorem index_then_reverse_lookup (words : list string) (vocab_size : Z)
    (tokens : list string) :
  "UNK"%string ∉ words →
  let dictionary := (build_vocab dict_iter words vocab_size).1 in
  let index_dictionary := (build_vocab dict_iter words vocab_size).2 in
  ∃ indices,
    index_words_in_corpus dictionary tokens = Ok indices ∧
    comprehension (dict_getitem index_dictionary) indices
    = Ok ((λ token, match dictionary !! token with
                    | Some _ => token
                    | None => "UNK"%string
                    end) <$> tokens).
Proof.
  intros Hunk dictionary index_dictionary.
  eexists. split; [apply index_words_in_corpus_eq|].
  rewrite comprehension_fmap. apply comprehension_Ok. intros token _. cbn.
  unfold dict_getitem.
  destruct (dictionary !! token) as [i|] eqn:E; cbn.
  - apply (index_dictionary_lookup dict_iter dict_iter_perm) in E; [|done].
    fold index_dictionary in E. by rewrite E.
  - assert (dictionary !! "UNK"%string = Some 0) as H0.
    { apply dictionary_lookup; [done..|]. by exists 0%nat. }
    apply (index_dictionary_lookup dict_iter dict_iter_perm) in H0; [|done].
    fold index_dictionary in H0. by rewrite H0.
Qed.

(** X5. When the vocabulary has room for every word of the corpus, no corpus
    word is indexed as unknown, and reading the indices of the corpus back
    gives the corpus itself. *)
Theorem corpus_round_trip (words : list string) (vocab_size : Z) :
  "UNK"%string ∉ words →
  Z.of_nat (length (remove_dups words)) ≤ vocab_size - 1 →
  let dictionary := (build_vocab dict_iter words vocab_size).1 in
  let index_dictionary := (build_vocab dict_iter words vocab_size).2 in
  ∃ indices,
    index_words_in_corpus dictionary words = Ok indices ∧
    Forall (λ i, 1 ≤ i < dict_len dictionary) indices ∧
    comprehension (dict_getitem index_dictionary) indices = Ok words.
Proof.
  intros Hunk Hlen dictionary index_dictionary.
  assert (∀ w, w ∈ words → ∃ k : nat,
            dictionary !! w = Some (Z.of_nat (S k)) ∧
            (S k < length (vocab_words dict_iter words vocab_size))%nat) as Hcov.
  { intros w Hw.
    destruct (dictionary_covers dict_iter dict_iter_perm words vocab_size w Hunk Hlen Hw)
      as [i Hi].
    pose proof Hi as (k & Hk & ->)%dictionary_lookup; [|done..].
    destruct k as [|k].
    - cbn in Hk. injection Hk as <-. done.
    - exists k. split; [done|]. by apply lookup_lt_Some in Hk. }
  eexists. split; [apply index_words_in_corpus_eq|]. split.
  - apply Forall_fmap, Forall_forall. intros w Hw. cbn.
    destruct (Hcov w Hw) as (k & -> & Hk). cbn.
    unfold dict_len. subst dictionary. rewrite dictionary_size by done. lia.
  - rewrite comprehension_fmap. rewrite <- (list_fmap_id words) at 2.
    apply comprehension_Ok. intros w Hw. cbn.
    destruct (Hcov w Hw) as (k & Hd & _). rewrite Hd. cbn.
    apply (index_dictionary_lookup dict_iter dict_iter_perm) in Hd; [|done].
    unfold dict_getitem. fold index_dictionary in Hd. by rewrite Hd.
Qed.

(** X6. For any corpus without the token UNK, any vocabulary size of at least
    1 and any list of tokens, encoding never raises: it yields one row per
    token, each of the length of the vocabulary and one-hot at the token's
    index. *)
Theorem encoding_never_raises (words : list string) (vocab_size : Z)
    (tokens : list string) :
  "UNK"%string ∉ words → 1 ≤ vocab_size →
  let dictionary := (build_vocab dict_iter words vocab_size).1 in
  let vocabulary_size := dict_len dictionary in
  ∃ indices rows,
    index_words_in_corpus dictionary tokens = Ok indices ∧
    comprehension (one_hot_encode vocabulary_size) indices = Ok rows ∧
    length rows = length tokens ∧
    Forall2 (one_hot vocabulary_size) indices rows.
Proof.
  intros Hunk Hvs dictionary vocabulary_size.
  destruct (comprehension_Forall2 (one_hot_encode vocabulary_size)
              (one_hot vocabulary_size)
              ((λ token, default 0 (dictionary !! token)) <$> tokens))
    as (rows & Hrows & HF).
  - intros i Hi. apply one_hot_encode_in_range.
    pose proof (indices_in_range dict_iter dict_iter_perm words vocab_size tokens Hunk Hvs)
      as Hr.
    rewrite Forall_forall in Hr. by apply Hr.
  - eexists _, rows. split; [apply index_words_in_corpus_eq|].
    split_and!; [done| |done].
    apply Forall2_length in HF. by rewrite length_fmap in HF.
Qed.

End VocabularyOrder.

(** ** One-hot rows and indexing *)

Section OneHotFacts.
Import Autoencoder.

(** X7. For an index that is a machine integer, [one_hot_encode] raises
    IndexError exactly when the index is outside [-n .. n-1]; a negative
    index counts from the end. *)
Theorem one_hot_encode_bounds (n index : Z) :
  0 ≤ n → - 2 ^ 63 ≤ index < 2 ^ 63 →
  (one_hot_encode n index = Raise IndexError ↔ ¬ (- n ≤ index < n)) ∧
  (- n ≤ index < 0 → one_hot_encode n index = one_hot_encode n (n + index)) ∧
  (- n ≤ index < n → ∃ row, one_hot_encode n index = Ok row ∧ length row = Z.to_nat n).
Proof.
  intros Hn _. unfold one_hot_encode, setitem, position, np_zeros.
  rewrite length_replicate. split_and!.
  - repeat case_bool_decide; cbn; split; try done; try lia.
  - intros Hi. rewrite bool_decide_eq_false_2, bool_decide_eq_true_2 by lia.
    rewrite (bool_decide_eq_true_2 (0 ≤ n + index < _)) by lia. cbn.
    do 3 f_equal. lia.
  - intros Hi. repeat case_bool_decide; cbn; try lia;
      (eexists; split; [done|]; by rewrite length_insert, length_replicate).
Qed.

(** X8. Distinct indices have distinct rows: the one-hot encoding loses
    nothing. *)
Theorem one_hot_encode_injective (n i j : Z) :
  0 ≤ i < n → 0 ≤ j < n →
  one_hot_encode n i = one_hot_encode n j → i = j.
Proof.
  intros Hi Hj.
  destruct (one_hot_encode_in_range n i Hi) as (ri & -> & _ & _ & Hri).
  destruct (one_hot_encode_in_range n j Hj) as (rj & -> & Hlen & _ & Hrj).
  intros [= ->].
  assert (Z.to_nat i < length rj)%nat as Hlt by lia.
  pose proof (Hri _ Hlt) as H1. pose proof (Hrj _ Hlt) as H2.
  rewrite bool_decide_eq_true_2 in H1 by lia. rewrite H1 in H2.
  case_bool_decide; [lia|done].
Qed.

(** X9. For an array of any length, [a[randint(1, len(a))]] raises
    IndexError exactly when the draw is [len(a)]; it never selects [a[0]],
    and any other draw selects the element it names. *)
Theorem sample_from_one_to_length {A} (a : list A) (N : Z) :
  randint 1 (Z.of_nat (length a)) N →
  (getitem a N = Raise IndexError ↔ N = Z.of_nat (length a)) ∧
  position (length a) N ≠ Ok 0%nat ∧
  (N < Z.of_nat (length a) → ∃ x, getitem a N = Ok x ∧ a !! Z.to_nat N = Some x).
Proof.
  intros [H1 H2]. unfold getitem, position. split_and!.
  - case_bool_decide as Hin; cbn.
    + destruct (lookup_lt_is_Some_2 a (Z.to_nat N)) as [x Hx]; [lia|].
      rewrite Hx. split; [done|lia].
    + rewrite bool_decide_eq_false_2 by lia. split; [lia|done].
  - repeat case_bool_decide; try done; intros [= ?]; lia.
  - intros Hlt. rewrite bool_decide_eq_true_2 by lia. cbn.
    destruct (lookup_lt_is_Some_2 a (Z.to_nat N)) as [x Hx]; [lia|].
    exists x. by rewrite Hx.
Qed.

End OneHotFacts.

(** ** The reconstruction cells *)

Lemma Prim2SF_0 : Prim2SF 0 = S754_zero false.
Proof. vm_compute. reflexivity. Qed.
Lemma Prim2SF_1 : Prim2SF 1 = S754_finite false 4503599627370496 (-52).
Proof. vm_compute. reflexivity. Qed.

Lemma positive_then_one (x : float) :
  ((if (0 <? x)%float then 1%float else x) =? 1)%float = (0 <? x)%float.
Proof.
  destruct (0 <? x)%float eqn:E; [reflexivity|].
  rewrite eqb_spec, Prim2SF_1. rewrite ltb_spec, Prim2SF_0 in E.
  destruct (Prim2SF x) as [[]|[]| |[] m e]; try reflexivity; discriminate E.
Qed.

Lemma range_lookup (n : nat) (i : nat) :
  (i < n)%nat → range (Z.of_nat n) !! i = Some (Z.of_nat i).
Proof.
  intros Hi. unfold range. rewrite Nat2Z.id, list_lookup_fmap, lookup_seq_lt by done. done.
Qed.

Lemma range_elem (n : Z) (i : Z) : i ∈ range n ↔ 0 ≤ i < n.
Proof.
  unfold range. rewrite list_elem_of_fmap. split.
  - intros (k & -> & Hk%elem_of_seq). lia.
  - intros Hi. exists (Z.to_nat i). split; [lia|]. apply elem_of_seq. lia.
Qed.

Lemma getitem_in_range {A} (a : list A) (i : Z) :
  0 ≤ i < Z.of_nat (length a) → getitem a i = match a !! Z.to_nat i with
                                               | Some x => Ok x
                                               | None => Raise IndexError
                                               end.
Proof. intros Hi. unfold getitem, position. by rewrite bool_decide_eq_true_2. Qed.

Section Reconstruction.
Import Autoencoder.
Variable dict_iter : gmap string Z → list (string * Z).
Hypothesis dict_iter_perm : ∀ d, dict_iter d ≡ₚ map_to_list d.

(** X10. The line the last cell prints: for a first row no longer than the
    vocabulary it never raises, and it shows, separated by single spaces, the
    word of index [i] where the decoder's output [i] is positive and nothing
    where it is not; thresholding and the test [== 1.] together are a test of
    positivity. *)
Theorem printed_sentence_positive_words (words : list string) (vocab_size : Z)
    (row : list float) (rest : list (list float)) :
  "UNK"%string ∉ words →
  (length row ≤ length (vocab_words dict_iter words vocab_size))%nat →
  printed_sentence (build_vocab dict_iter words vocab_size).2 (threshold (row :: rest))
  = Ok (String.concat " "
          (zip_with (λ x w, if (0 <? x)%float then w else ""%string)
                    row (vocab_words dict_iter words vocab_size))).
Proof.
  intros Hunk Hlen. unfold printed_sentence, threshold. cbn [fmap list_fmap].
  rewrite getitem_in_range by (cbn [length]; lia).
  change (Z.to_nat 0) with 0%nat. cbn [lookup list_lookup].
  unfold mbind at 1, py_bind at 1.
  rewrite length_fmap.
  set (vocab := vocab_words dict_iter words vocab_size) in *.
  rewrite (comprehension_Ok _
    (λ i, match row !! Z.to_nat i, vocab !! Z.to_nat i with
          | Some x, Some w => if (0 <? x)%float then w else ""%string
          | _, _ => ""%string
          end)).
  - unfold mbind, py_bind. do 2 f_equal. apply list_eq. intros i.
    rewrite list_lookup_fmap, lookup_zip_with.
    destruct (decide (i < length row)%nat) as [Hi|Hi].
    + rewrite range_lookup by done. cbn. rewrite Nat2Z.id.
      destruct (lookup_lt_is_Some_2 row i Hi) as [x ->].
      destruct (lookup_lt_is_Some_2 vocab i) as [w ->]; [lia|]. done.
    + rewrite (lookup_ge_None_2 row) by lia.
      unfold range. rewrite Nat2Z.id, list_lookup_fmap, lookup_seq_ge by lia. done.
  - intros i [Hi0 Hi]%range_elem.
    rewrite getitem_in_range by (rewrite length_fmap; lia).
    rewrite list_lookup_fmap.
    destruct (lookup_lt_is_Some_2 row (Z.to_nat i)) as [x ->]; [lia|].
    destruct (lookup_lt_is_Some_2 vocab (Z.to_nat i)) as [w Hw]; [lia|]. rewrite Hw.
    cbn. rewrite positive_then_one. destruct (0 <? x)%float; [|done].
    unfold dict_getitem.
    assert ((build_vocab dict_iter words vocab_size).2 !! i = Some w) as ->; [|done].
    apply index_dictionary_lookup; [done..|]. apply dictionary_lookup; [done..|].
    exists (Z.to_nat i). split; [done|lia].
Qed.

End Reconstruction.

(** ** Runs of the properties above

    The corpus of the notebook, dicts iterated in key order. *)

Lemma build_vocab_most_frequent_witness :
  let dictionary := (Autoencoder.build_vocab map_to_list Autoencoder.corpus_text 100).1 in
  (∀ w i, dictionary !! w = Some i → 0 < i → w ∈ Autoencoder.corpus_text) ∧
  (∀ w1 w2 i1 i2,
     dictionary !! w1 = Some i1 → dictionary !! w2 = Some i2 → 0 < i1 < i2 →
     Autoencoder.occurrences Autoencoder.corpus_text w2
     ≤ Autoencoder.occurrences Autoencoder.corpus_text w1) ∧
  (∀ w1 w2 i2,
     w1 ∈ Autoencoder.corpus_text → dictionary !! w1 = None →
     dictionary !! w2 = Some i2 → 0 < i2 →
     Autoencoder.occurrences Autoencoder.corpus_text w1
     ≤ Autoencoder.occurrences Autoencoder.corpus_text w2).
Proof.
  apply (build_vocab_most_frequent map_to_list).
  - intros d. reflexivity.
  - apply (bool_decide_unpack _). vm_compute. exact I.
Defined.

Lemma build_vocab_only_UNK_witness :
  Autoencoder.build_vocab map_to_list Autoencoder.corpus_text 1
  = ({["UNK"%string := 0]}, {[0 := "UNK"%string]}).
Proof.
  apply (build_vocab_only_UNK map_to_list).
  - intros d. reflexivity.
  - left. lia.
Defined.

Lemma build_vocab_UNK_in_words_witness :
  let words := ["the"; "UNK"; "fox"; "the"]%string in
  let dictionary := (Autoencoder.build_vocab map_to_list words 100).1 in
  let index_dictionary := (Autoencoder.build_vocab map_to_list words 100).2 in
  let m := Z.of_nat (length (remove_dups words)) in
  dict_len dictionary = m ∧
  (∀ i, (∃ w, dictionary !! w = Some i) ↔ 1 ≤ i ≤ m) ∧
  dict_getitem index_dictionary 0 = Raise KeyError ∧
  (∃ w, w ∈ words ∧ dictionary !! w = Some m ∧
        Autoencoder.one_hot_encode (dict_len dictionary) m = Raise IndexError).
Proof.
  apply (build_vocab_UNK_in_words map_to_list).
  - intros d. reflexivity.
  - apply (bool_decide_unpack _). vm_compute. exact I.
  - vm_compute. discriminate.
Defined.

Lemma index_then_reverse_lookup_witness :
  let tokens := ["the"; "cat"; "jumped"]%string in
  let dictionary := (Autoencoder.build_vocab map_to_list Autoencoder.corpus_text 100).1 in
  let index_dictionary := (Autoencoder.build_vocab map_to_list Autoencoder.corpus_text 100).2 in
  ∃ indices,
    Autoencoder.index_words_in_corpus dictionary tokens = Ok indices ∧
    comprehension (dict_getitem index_dictionary) indices
    = Ok ((λ token, match dictionary !! token with
                    | Some _ => token
                    | None => "UNK"%string
                    end) <$> tokens).
Proof.
  apply (index_then_reverse_lookup map_to_list).
  - intros d. reflexivity.
  - apply (bool_decide_unpack _). vm_compute. exact I.
Defined.

Lemma corpus_round_trip_witness :
  let words := Autoencoder.corpus_text in
  let dictionary := (Autoencoder.build_vocab map_to_list words 100).1 in
  let index_dictionary := (Autoencoder.build_vocab map_to_list words 100).2 in
  ∃ indices,
    Autoencoder.index_words_in_corpus dictionary words = Ok indices ∧
    Forall (λ i, 1 ≤ i < dict_len dictionary) indices ∧
    comprehension (dict_getitem index_dictionary) indices = Ok words.
Proof.
  apply (corpus_round_trip map_to_list).
  - intros d. reflexivity.
  - apply (bool_decide_unpack _). vm_compute. exact I.
  - vm_compute. discriminate.
Defined.

Lemma encoding_never_raises_witness :
  let tokens := ["the"; "cat"; "jumped"]%string in
  let dictionary := (Autoencoder.build_vocab map_to_list Autoencoder.corpus_text 5).1 in
  let vocabulary_size := dict_len dictionary in
  ∃ indices rows,
    Autoencoder.index_words_in_corpus dictionary tokens = Ok indices ∧
    comprehension (Autoencoder.one_hot_encode vocabulary_size) indices = Ok rows ∧
    length rows = length tokens ∧
    Forall2 (Autoencoder.one_hot vocabulary_size) indices rows.
Proof.
  apply (encoding_never_raises map_to_list).
  - intros d. reflexivity.
  - apply (bool_decide_unpack _). vm_compute. exact I.
  - lia.
Defined.

Lemma one_hot_encode_bounds_witness :
  (Autoencoder.one_hot_encode 11 (-1) = Raise IndexError ↔ ¬ (- 11 ≤ -1 < 11)) ∧
  (- 11 ≤ -1 < 0 → Autoencoder.one_hot_encode 11 (-1) = Autoencoder.one_hot_encode 11 (11 + -1)) ∧
  (- 11 ≤ -1 < 11 →
   ∃ row, Autoencoder.one_hot_encode 11 (-1) = Ok row ∧ length row = Z.to_nat 11).
Proof. apply (one_hot_encode_bounds 11 (-1)); lia. Defined.

Lemma one_hot_encode_injective_witness :
  Autoencoder.one_hot_encode 11 3 = Autoencoder.one_hot_encode 11 (1 + 2) ∧ 3 = 1 + 2.
Proof.
  split; [reflexivity|].
  apply (one_hot_encode_injective 11 3 (1 + 2)); [lia|lia|reflexivity].
Defined.

Lemma sample_from_one_to_length_witness :
  let a := [10; 20; 30] in
  (getitem a 3 = Raise IndexError ↔ 3 = Z.of_nat (length a)) ∧
  position (length a) 3 ≠ Ok 0%nat ∧
  (3 < Z.of_nat (length a) → ∃ x, getitem a 3 = Ok x ∧ a !! Z.to_nat 3 = Some x).
Proof.
  apply (sample_from_one_to_length [10; 20; 30] 3). unfold randint. simpl. lia.
Defined.

Lemma printed_sentence_positive_words_witness :
  let row := [0.5%float; (-1)%float; 0.25%float] in
  Autoencoder.printed_sentence
    (Autoencoder.build_vocab map_to_list Autoencoder.corpus_text 100).2
    (Autoencoder.threshold [row; row])
  = Ok (String.concat " "
          (zip_with (λ x w, if (0 <? x)%float then w else ""%string)
                    row (Autoencoder.vocab_words map_to_list Autoencoder.corpus_text 100))).
Proof.
  apply (printed_sentence_positive_words map_to_list).
  - intros d. reflexivity.
  - apply (bool_decide_unpack _). vm_compute. exact I.
  - vm_compute. lia.
Defined.

Lemma training_data_flow_witness :
  let notebook :=
    Cifar10.notebook (array := unit) (float := Z) (backend := unit) (file := string)
      "cifar-10-python.tar.gz"%string
      (λ _, (((), ()), ((), ()))) id (λ a _, a) id (λ _, [10000; 10]) Z.mul
      (λ _ _ _ _, [1; 2]) (λ _ b, b) in
  ∃ k' num_classes m1 m2 scores1 scores2,
    notebook (Cifar10.Kernel ∅ () []) = (Ok (), k') ∧
    getitem [10000; 10] 1 = Ok num_classes ∧
    Cifar10.training_calls (Cifar10.calls k')
      = [Cifar10.model_fit m1 () () ((), ()) 10 32;
         Cifar10.model_evaluate m1 () () 0 scores1;
         Cifar10.model_fit m2 () () ((), ()) 10 64;
         Cifar10.model_evaluate m2 () () 0 scores2] ∧
    Cifar10.compiled m1
      = Some (Cifar10.Compile "categorical_crossentropy" (Cifar10.by_name "adagrad")
                ["categorical_accuracy"%string]) ∧
    Cifar10.compiled m2
      = Some (Cifar10.Compile "categorical_crossentropy" (Cifar10.by_name "adagrad")
                ["categorical_accuracy"%string]) ∧
    last (Cifar10.layers m1) = Some (Cifar10.Dense num_classes "softmax" None) ∧
    last (Cifar10.layers m2) = Some (Cifar10.Dense num_classes "softmax" None).
Proof.
  apply (training_data_flow (array := unit) (float := Z) (backend := unit) (file := string)
           "cifar-10-python.tar.gz"%string
           (λ _, (((), ()), ((), ()))) id (λ a _, a) id (λ _, [10000; 10]) Z.mul
           (λ _ _ _ _, [1; 2]) (λ _ b, b) ∅ ()).
  - intros a. simpl. lia.
  - intros st m x y. simpl. lia.
Defined.
